(** * A Keras CNN tutorial notebook ([04_keras_CNN.ipynb]), embedded in Rocq.

    The notebook is a straight-line Python program: every cell is a short
    sequence of calls into numpy and Keras 1.x.  The embedding keeps that
    shape.  Pure array code (the pixel normalisation, the one-hot encoding,
    shape inference) becomes Rocq functions; the cells become programs of a
    small state-and-exception monad whose state is the part of the Python
    and Keras world the notebook can observe: the model objects by identity,
    the layer-name counters, the library calls made so far and what was
    printed. *)

From Stdlib Require Import ZArith QArith Qabs List Lia.
From Stdlib Require Import Floats.SpecFloat.
From stdpp Require Import base option list strings pretty gmap.

Local Open Scope Z_scope.

(** ** numpy: single-precision numbers and arrays *)

(** A single-precision number, as the Standard Library specifies IEEE 754
    numbers. *)
Definition float32 : Type := spec_float.

Module Float32.

(** IEEE 754 binary32: 24 bits of precision, infinities at exponent 128.
    The operations are the Standard Library's specification of IEEE
    arithmetic (round to nearest, ties to even) at these parameters. *)
Definition prec : Z := 24.
Definition emax : Z := 128.

(** Conversion of an integer: exact below [2^24], rounded beyond. *)
Definition of_int (z : Z) : float32 := binary_normalize prec emax z 0 false.

Definition div (x y : float32) : float32 := SFdiv prec emax x y.

(** The rational a float denotes; infinities and NaN denote none. *)
Definition to_Q (x : float32) : option Q :=
  match x with
  | S754_zero _ => Some 0%Q
  | S754_finite s m e =>
      let v := (inject_Z (Z.pos m) * Qpower 2 e)%Q in
      Some (if s then Qopp v else v)
  | S754_infinity _ | S754_nan => None
  end.

End Float32.

(** The image arrays of the notebook are four-dimensional
    (samples, rows, columns, channels); the elements are kept flat, in
    C order, next to the shape. *)
Record ndarray4 (A : Type) : Type := mk_ndarray4 {
  shape : nat * nat * nat * nat;
  flat : list A
}.
Arguments mk_ndarray4 {A} _ _.
Arguments shape {A} _.
Arguments flat {A} _.

(** [X.shape[0]] and [X.shape[1:]]. *)
Definition shape_0 {A} (X : ndarray4 A) : nat :=
  let '(n, _, _, _) := shape X in n.
Definition shape_from_1 {A} (X : ndarray4 A) : nat * nat * nat :=
  let '(_, r, c, ch) := shape X in (r, c, ch).

(** An array is well formed when it holds as many elements as its shape says. *)
Definition well_shaped {A} (X : ndarray4 A) : Prop :=
  let '(n, r, c, ch) := shape X in length (flat X) = (n * r * c * ch)%nat.

(** [X.astype('float32')] on an integer array. *)
Definition astype_float32 (X : ndarray4 Z) : ndarray4 float32 :=
  mk_ndarray4 (shape X) (map Float32.of_int (flat X)).

(** [X / d] for a float32 array and a Python integer: numpy keeps the
    array's dtype, so the scalar is converted to float32 and the division is
    a float32 division, element by element. *)
Definition ndarray_div (X : ndarray4 float32) (d : Z) : ndarray4 float32 :=
  mk_ndarray4 (shape X) (map (fun x => Float32.div x (Float32.of_int d)) (flat X)).

(** [X.astype('float32') / 255], as both image arrays are treated in the
    first code cell. *)
Definition normalize (X : ndarray4 Z) : ndarray4 float32 :=
  ndarray_div (astype_float32 X) 255.

(** What [normalize] stores for one pixel. *)
Definition normalize_pixel (p : Z) : float32 :=
  Float32.div (Float32.of_int p) (Float32.of_int 255).

(** The exact quotient the comment of the cell speaks of. *)
Definition exact_ratio (p : Z) : Q := (inject_Z p / 255)%Q.

(** Half a unit in the last place of a stored number. *)
Definition half_ulp (x : float32) : Q :=
  match x with
  | S754_finite _ _ e => Qpower 2 (e - 1)
  | _ => 0%Q
  end.

(** What the normalisation achieves for a pixel [p] stored as [x]: [x] is a
    proper float32 denoting some [v] in [0,1]; [v] is [p/255] rounded to
    nearest, so within half a unit in the last place of it and never more
    than [2^-25] away; and [v] is [p/255] itself exactly when [p] is 0 or
    255. *)
Definition normalized_as (p : Z) (x : float32) : Prop :=
  exists v : Q,
    Float32.to_Q x = Some v
    /\ valid_binary Float32.prec Float32.emax x = true
    /\ (0 <= v)%Q /\ (v <= 1)%Q
    /\ (Qabs (v - exact_ratio p) <= half_ulp x)%Q
    /\ (Qabs (v - exact_ratio p) <= 1 # 2 ^ 25)%Q
    /\ ((v == exact_ratio p)%Q <-> p = 0 \/ p = 255).

(** The same, as a test that can be run. *)
Definition pixel_check (p : Z) : bool :=
  let x := normalize_pixel p in
  match Float32.to_Q x with
  | Some v =>
      valid_binary Float32.prec Float32.emax x
      && Qle_bool 0 v && Qle_bool v 1
      && Qle_bool (Qabs (v - exact_ratio p)) (half_ulp x)
      && Qle_bool (Qabs (v - exact_ratio p)) (1 # 2 ^ 25)
      && Bool.eqb (Qeq_bool v (exact_ratio p)) ((p =? 0) || (p =? 255))
  | None => false
  end.

Definition uint8_values : list Z := map Z.of_nat (seq 0 256).

(** ** keras.utils.np_utils *)

Module np_utils.

(** Modelled from the spec: [np_utils.to_categorical] is Keras code, absent
    from the notebook; the specification's glossary and the notebook's
    prose fix it on labels that are class indices: a label becomes a vector
    of [nb_classes] entries with a single 1 at the label's index and 0
    elsewhere.  The row is built the way the prose suggests, a row of
    zeros with one entry overwritten, and a label that is no index of the
    row is reported as a failure (numpy raises). *)
Definition one_hot (nb_classes : nat) (t : Z) : option (list Z) :=
  if decide (0 <= t < Z.of_nat nb_classes)
  then Some (<[Z.to_nat t := 1]> (replicate nb_classes 0))
  else None.

(** Modelled from the spec: the label conversion of a whole label vector,
    one row per label; it fails when one of the labels does. *)
Definition to_categorical (y : list Z) (nb_classes : nat) : option (list (list Z)) :=
  mapM (one_hot nb_classes) y.

End np_utils.

(** ** keras.layers *)

(** A layer as the notebook writes it.  An optional keyword argument the
    call leaves out is [None]; the library's default then applies (see
    [border_mode_of] and [apply_activation]). *)
Inductive LayerConfig : Type :=
| InputLayer (shape : nat * nat * nat)
| Convolution2D (nb_filter nb_row nb_col : nat)
    (activation border_mode : option string) (input_shape : option (nat * nat * nat))
| Activation (activation : string)
| MaxPooling2D (pool_size : nat * nat)
| Dropout (p : Q)
| Flatten
| Dense (output_dim : nat) (activation : option string).

(** The class name Keras derives layer names from. *)
Definition class_name (c : LayerConfig) : string :=
  match c with
  | InputLayer _ => "InputLayer"
  | Convolution2D _ _ _ _ _ _ => "Convolution2D"
  | Activation _ => "Activation"
  | MaxPooling2D _ => "MaxPooling2D"
  | Dropout _ => "Dropout"
  | Flatten => "Flatten"
  | Dense _ _ => "Dense"
  end.

(** Layer names are a prefix and a running number per prefix
    ([convolution2d_5], [input_1], ...). *)
Definition name_prefix (c : LayerConfig) : string :=
  match c with
  | InputLayer _ => "input"
  | Convolution2D _ _ _ _ _ _ => "convolution2d"
  | Activation _ => "activation"
  | MaxPooling2D _ => "maxpooling2d"
  | Dropout _ => "dropout"
  | Flatten => "flatten"
  | Dense _ _ => "dense"
  end.

(** A layer instance: its configuration and the name it was given when it
    was created. *)
Record Layer : Type := mk_Layer {
  layer_name : string * nat;
  config : LayerConfig
}.

(** A symbolic tensor of the functional API: the placeholder made by
    [Input], or the result of calling a layer on a tensor. *)
Inductive Tensor : Type :=
| Placeholder (l : Layer)
| Output_of (l : Layer) (x : Tensor).

(** The default the notebook's prose recalls: [border_mode='valid']. *)
Definition border_mode_of (b : option string) : string := default "valid" b.

(** Output shape of a layer for a given input shape, channels last, by the
    rules the notebook's prose and its recorded summary show: ['same']
    keeps width and height, ['valid'] reduces them by the kernel size minus
    one (32 to 30), pooling with strides equal to the pool size divides
    them (30 to 15, 13 to 6).  The notebook states these rules for layers
    that fit their input.  Where a kernel or a pool is larger than the
    image, or a dense layer is given an image, the rules say nothing and
    the result is [None]: what Keras infers there is not modelled. *)
Definition output_shape (cfg : LayerConfig) (s : list nat) : option (list nat) :=
  match cfg, s with
  | InputLayer (rows, cols, ch), _ => Some [rows; cols; ch]
  | Convolution2D f kr kc _ b _, [rows; cols; _] =>
      if String.eqb (border_mode_of b) "same" then Some [rows; cols; f]
      else if (kr <=? rows)%nat && (kc <=? cols)%nat
           then Some [rows - kr + 1; cols - kc + 1; f]%nat
           else None
  | Activation _, _ => Some s
  | MaxPooling2D (pr, pc), [rows; cols; ch] =>
      if (0 <? pr)%nat && (0 <? pc)%nat && (pr <=? rows)%nat && (pc <=? cols)%nat
      then Some [rows / pr; cols / pc; ch]%nat
      else None
  | Dropout _, _ => Some s
  | Flatten, _ :: _ => Some [fold_right Nat.mul 1%nat s]
  | Dense n _, [_] => Some [n]
  | _, _ => None
  end.

(** Number of trainable weights of a layer on a given input shape: a kernel
    and one bias per filter, or a matrix and one bias per unit. *)
Definition count_params (c : LayerConfig) (s : list nat) : N :=
  match c, s with
  | Convolution2D f kr kc _ _ _, [_; _; ch] =>
      (N.of_nat kr * N.of_nat kc * N.of_nat ch * N.of_nat f + N.of_nat f)%N
  | Dense n _, [k] => (N.of_nat k * N.of_nat n + N.of_nat n)%N
  | _, _ => 0%N
  end.

(** ** Models *)

Record SGD : Type := mk_SGD {
  lr : Q;
  decay : Q;
  momentum : Q;
  nesterov : bool
}.

Record CompileArgs : Type := mk_CompileArgs {
  loss : string;
  optimizer : SGD;
  metrics : list string
}.

(** The two ways the notebook declares a network: a [Sequential] stack that
    [add] extends in place, and a [Model] given by its input and output
    tensors. *)
Inductive Topology : Type :=
| Stack (layers : list Layer)
| Graph (input output : Tensor).

Record ModelObj : Type := mk_ModelObj {
  topology : Topology;
  compiled : option CompileArgs
}.

(** The layers on the path from the placeholder a tensor rests on up to the
    tensor, first layer first. *)
Fixpoint path_layers (t : Tensor) : list Layer :=
  match t with
  | Placeholder l => [l]
  | Output_of l x => path_layers x ++ [l]
  end.

Fixpoint placeholder_of (t : Tensor) : Layer :=
  match t with
  | Placeholder l => l
  | Output_of _ x => placeholder_of x
  end.

(** The layers of a model, in the order data flows through them.  A
    [Model] whose output does not rest on its input has none (Keras refuses
    to build it). *)
Definition model_layers (m : ModelObj) : option (list Layer) :=
  match topology m with
  | Stack ls => Some ls
  | Graph (Placeholder l) output =>
      if decide (layer_name (placeholder_of output) = layer_name l)
      then Some (path_layers output) else None
  | Graph (Output_of _ _) _ => None
  end.

(** The shape a model expects: that of its placeholder, or the
    [input_shape] its first layer was given. *)
Definition input_shape_of (ls : list Layer) : option (nat * nat * nat) :=
  match ls with
  | l :: _ =>
      match config l with
      | InputLayer s => Some s
      | Convolution2D _ _ _ _ _ s => s
      | _ => None
      end
  | [] => None
  end.

(** One row of [model.summary()]: layer name, class, output shape,
    number of weights. *)
Record SummaryRow : Type := mk_SummaryRow {
  row_name : string * nat;
  row_class : string;
  row_shape : list nat;
  row_params : N
}.

Fixpoint summary_rows (ls : list Layer) (s : list nat) : option (list SummaryRow) :=
  match ls with
  | [] => Some []
  | l :: ls' =>
      s' ← output_shape (config l) s;
      rows ← summary_rows ls' s';
      Some (mk_SummaryRow (layer_name l) (class_name (config l)) s'
              (count_params (config l) s) :: rows)
  end.

Definition shape_list (s : nat * nat * nat) : list nat :=
  let '(r, c, ch) := s in [r; c; ch].

Definition summary (m : ModelObj) : option (list SummaryRow) :=
  ls ← model_layers m;
  s ← input_shape_of ls;
  summary_rows ls (shape_list s).

Definition total_params (rows : list SummaryRow) : N :=
  fold_right N.add 0%N (map row_params rows).

(** ** keras.preprocessing.image *)

(** The generator's configuration: the ten keyword arguments the notebook
    passes, in the order it passes them. *)
Record ImageDataGenerator : Type := mk_ImageDataGenerator {
  featurewise_center : bool;
  samplewise_center : bool;
  featurewise_std_normalization : bool;
  samplewise_std_normalization : bool;
  zca_whitening : bool;
  rotation_range : Q;
  width_shift_range : Q;
  height_shift_range : Q;
  horizontal_flip : bool;
  vertical_flip : bool
}.

(** The iterator [datagen.flow(X, Y, batch_size=...)] returns. *)
Record Flow : Type := mk_Flow {
  flow_generator : ImageDataGenerator;
  flow_X : ndarray4 float32;
  flow_Y : list (list Z);
  flow_batch_size : Z
}.

(** ** The Python and Keras world the notebook runs in *)

(** An exception: its class and its message. *)
Record PyExc : Type := mk_PyExc {
  exc_class : string;
  exc_msg : string
}.

Inductive Outcome (A : Type) : Type :=
| Ok (a : A)
| Raise (e : PyExc).
Arguments Ok {A} _.
Arguments Raise {A} _.

(** A library call that returned.  Models are named by their identity, the
    position of the object on the heap. *)
Inductive Event : Type :=
| cifar10_load_data
| ndarray_astype (dtype : string)
| ndarray_truediv (d : Z)
| np_utils_to_categorical (nb_classes : nat)
| new_layer (l : Layer)
| new_Sequential (id : nat)
| Sequential_add (id : nat) (l : Layer)
| layer_call (l : Layer)
| new_Model (id : nat)
| Model_summary (id : nat)
| new_SGD (sgd : SGD)
| Model_compile (id : nat) (args : CompileArgs)
| new_ImageDataGenerator (g : ImageDataGenerator)
| ImageDataGenerator_fit (g : ImageDataGenerator) (X : ndarray4 float32)
| ImageDataGenerator_flow (f : Flow)
| Model_fit (id : nat) (X : ndarray4 float32) (Y : list (list Z))
    (batch_size nb_epoch : Z)
    (validation_data : ndarray4 float32 * list (list Z)) (shuffle : bool)
| Model_fit_generator (id : nat) (generator : Flow)
    (samples_per_epoch : nat) (nb_epoch : Z)
    (validation_data : ndarray4 float32 * list (list Z)).

(** What a cell wrote to its output: a line of text, or the table of
    [model.summary()] with its total. *)
Inductive Printed : Type :=
| Text (s : string)
| Table (rows : list SummaryRow) (total : N)
| Progress (nb_epoch : Z).
(* [Progress nb_epoch] is the report Keras writes while it trains: for each
   epoch the line [Epoch i/nb_epoch] and a progress bar with the loss.  Its
   figures depend on the training and are not modelled. *)

(** What a program can see of the world: the model objects, Keras' name
    counters, the library calls that returned, and what was printed. *)
Record Snapshot : Type := mk_Snapshot {
  snap_heap : list ModelObj;
  snap_uids : gmap string nat;
  snap_trace : list Event;
  snap_stdout : list Printed
}.

(** A library call that was made: the world it was made in, and the
    exception it raised if it did not return. *)
Record Attempt : Type := mk_Attempt {
  made_in : Snapshot;
  raised : option PyExc
}.

Record World : Type := mk_World {
  heap : list ModelObj;       (* the model objects, by identity *)
  uids : gmap string nat;     (* Keras' running number per name prefix *)
  trace : list Event;         (* the library calls that returned, oldest first *)
  stdout : list Printed;      (* what was printed, oldest first *)
  attempts : list Attempt     (* every library call made, returned or not *)
}.
(* Python keeps no record of the calls that were made.  [attempts] is kept
   beside the world so that what a program does after a call has raised,
   be it a retry, a clean-up or nothing at all, can be told from the
   world it leaves. *)

Definition initial : World := mk_World [] ∅ [] [] [].

Definition snapshot (w : World) : Snapshot :=
  mk_Snapshot (heap w) (uids w) (trace w) (stdout w).

(** A Python computation: it runs in a world and either returns a value or
    raises, leaving a world behind. *)
Definition Py (A : Type) : Type := World -> Outcome A * World.

Definition ret {A} (a : A) : Py A := fun w => (Ok a, w).

Definition bind {A B} (m : Py A) (k : A -> Py B) : Py B :=
  fun w => match m w with
           | (Ok a, w') => k a w'
           | (Raise e, w') => (Raise e, w')
           end.

#[global] Instance Py_ret : MRet Py := @ret.
#[global] Instance Py_bind : MBind Py := fun A B k m => bind m k.

(** [try: m  except: h], the construct the notebook never uses. *)
Definition try_except {A} (m : Py A) (h : PyExc -> Py A) : Py A :=
  fun w => match m w with
           | (Ok a, w') => (Ok a, w')
           | (Raise e, w') => h e w'
           end.

(** The built-in [print]. *)
Definition print (s : string) : Py unit :=
  fun w => (Ok tt, mk_World (heap w) (uids w) (trace w) (stdout w ++ [Text s])
                     (attempts w)).

(** [raise e] *)
Definition raise {A} (e : PyExc) : Py A := fun w => (Raise e, w).

(** The world after a library call that returned: what the call left
    behind, with the call appended to the trace of the world it started
    in, and recorded as made. *)
Definition returned (ev : Event) (before after : World) : World :=
  mk_World (heap after) (uids after) (trace before ++ [ev]) (stdout after)
    (attempts before ++ [mk_Attempt (snapshot before) None]).

(** The world after a library call that raised: as it was, with the call
    recorded as made. *)
Definition raising (e : PyExc) (w : World) : World :=
  mk_World (heap w) (uids w) (trace w) (stdout w)
    (attempts w ++ [mk_Attempt (snapshot w) (Some e)]).

(** Python's rendering of a shape tuple and of a number. *)
Definition str_nat (n : nat) : string := pretty n.
Definition str_shape4 (s : nat * nat * nat * nat) : string :=
  let '(n, r, c, ch) := s in
  "(" +:+ str_nat n +:+ ", " +:+ str_nat r +:+ ", " +:+ str_nat c +:+ ", "
      +:+ str_nat ch +:+ ")".

(** ** The library, call by call *)

Definition Dataset : Type := (ndarray4 Z * list Z) * (ndarray4 Z * list Z).

Definition IndexError : PyExc := mk_PyExc "IndexError" "index out of bounds".
Definition TypeError : PyExc := mk_PyExc "TypeError" "data type not understood".
Definition AttributeError : PyExc := mk_PyExc "AttributeError" "object has no such attribute".
Definition ValueError : PyExc := mk_PyExc "ValueError" "incompatible shapes".
Definition RuntimeError : PyExc := mk_PyExc "RuntimeError" "graph disconnected".
Definition NoInputShape : PyExc :=
  mk_PyExc "ValueError" "the first layer needs an input shape".
Definition NotCompiled : PyExc :=
  mk_PyExc "RuntimeError" "the model needs to be compiled before being used".

Definition returns {A} (a : A) : World -> PyExc + A * World :=
  fun w => inr (a, w).

Definition set_heap (h : list ModelObj) (w : World) : World :=
  mk_World h (uids w) (trace w) (stdout w) (attempts w).

(** Objects are allocated at the end of the heap; the identity of the new
    object is its position. *)
Definition allocate (m : ModelObj) : World -> PyExc + nat * World :=
  fun w => inr (length (heap w), set_heap (heap w ++ [m]) w).

Section Library.

(** What the library does beyond this model (a download that fails,
    memory that runs out, a rejected argument) is left open: [fails n] is
    the exception the library raises in the [n]-th call that is made, if
    it raises one there.  Calls are counted as they are made, whether they
    return or not, so that a call made again is another call. *)
Variable fails : nat -> option PyExc.

(** A call into the library.  The call raises when the run's failure
    pattern says so or when the modelled behaviour [body] does; otherwise
    it returns, and the call is appended to the trace.  A call that raises
    is taken to leave the world as it found it: what the library may have
    changed on its way to the failure is not modelled. *)
Definition library_call {A} (body : World -> PyExc + A * World)
    (ev : A -> Event) : Py A :=
  fun w =>
    match fails (length (attempts w)) with
    | Some e => (Raise e, raising e w)
    | None =>
        match body w with
        | inl e => (Raise e, raising e w)
        | inr (a, w') => (Ok a, returned (ev a) w w')
        end
    end.

(** [cifar10.load_data()]; the data set itself is an input of the run.
    The data is taken to be on disk already, as in the run the notebook
    records, so that nothing is downloaded and nothing is printed. *)
Definition load_data (ds : Dataset) : Py Dataset :=
  library_call (returns ds) (fun _ => cifar10_load_data).

(** [X.astype(dtype)] *)
Definition astype (X : ndarray4 Z) (dtype : string) : Py (ndarray4 float32) :=
  library_call
    (fun w => if String.eqb dtype "float32" then inr (astype_float32 X, w)
              else inl TypeError)
    (fun _ => ndarray_astype dtype).

(** [X / d] *)
Definition truediv (X : ndarray4 float32) (d : Z) : Py (ndarray4 float32) :=
  library_call (returns (ndarray_div X d)) (fun _ => ndarray_truediv d).

(** [np_utils.to_categorical(y, nb_classes)] *)
Definition to_categorical (y : list Z) (nb_classes : nat) : Py (list (list Z)) :=
  library_call
    (fun w => match np_utils.to_categorical y nb_classes with
              | Some Y => inr (Y, w)
              | None => inl IndexError
              end)
    (fun _ => np_utils_to_categorical nb_classes).

(** Creating a layer, [Convolution2D(...)], [Dense(...)] and so on: the
    layer gets the next free number of its name prefix. *)
Definition new (c : LayerConfig) : Py Layer :=
  library_call
    (fun w =>
       let n := S (uids w !!! name_prefix c) in
       inr (mk_Layer (name_prefix c, n) c,
            mk_World (heap w) (<[name_prefix c := n]> (uids w)) (trace w) (stdout w)
              (attempts w)))
    new_layer.

(** [Sequential()] *)
Definition Sequential : Py nat :=
  library_call (allocate (mk_ModelObj (Stack []) None)) new_Sequential.

(** [model.add(layer)]: the stack of the model object grows in place.  As
    the notebook's prose says, the first layer has to specify the input's
    shape.  Keras also infers the output shape of every layer it is given,
    and its backend may refuse a layer its input is too small for; such a
    refusal is one of the failures of [fails]. *)
Definition add (model : nat) (l : Layer) : Py unit :=
  library_call
    (fun w =>
       match heap w !! model with
       | Some (mk_ModelObj (Stack ls) c) =>
           match ls, input_shape_of [l] with
           | [], None => inl NoInputShape
           | _, _ =>
               inr (tt, set_heap (<[model := mk_ModelObj (Stack (ls ++ [l])) c]> (heap w)) w)
           end
       | _ => inl AttributeError
       end)
    (fun _ => Sequential_add model l).

(** [Input(shape=...)] *)
Definition Input (shape : nat * nat * nat) : Py Tensor :=
  l ← new (InputLayer shape); mret (Placeholder l).

(** [layer(x)], a layer applied to a symbolic tensor.  Here too a layer
    that the backend refuses for the shape of [x] is a failure of
    [fails]. *)
Definition call (l : Layer) (x : Tensor) : Py Tensor :=
  library_call (returns (Output_of l x)) (fun _ => layer_call l).

(** [Layer(...)(x)], as every line of the functional cell is written. *)
Definition apply (c : LayerConfig) (x : Tensor) : Py Tensor :=
  l ← new c; call l x.

(** [Model(input=..., output=...)] *)
Definition Model (input output : Tensor) : Py nat :=
  library_call
    (fun w =>
       let m := mk_ModelObj (Graph input output) None in
       match model_layers m with
       | Some _ => allocate m w
       | None => inl RuntimeError
       end)
    new_Model.

(** [model.summary()] prints the table and returns [None].  For a model
    with a layer outside the rules of [output_shape] no table is modelled;
    the call raises here, where Keras would have refused the layer when the
    model was built. *)
Definition model_summary (model : nat) : Py unit :=
  library_call
    (fun w =>
       match heap w !! model with
       | Some m =>
           match summary m with
           | Some rows =>
               inr (tt, mk_World (heap w) (uids w) (trace w)
                          (stdout w ++ [Table rows (total_params rows)])
                          (attempts w))
           | None => inl ValueError
           end
       | None => inl AttributeError
       end)
    (fun _ => Model_summary model).

(** [SGD(lr=..., decay=..., momentum=..., nesterov=...)] *)
Definition new_sgd (sgd : SGD) : Py SGD :=
  library_call (returns sgd) new_SGD.

(** [model.compile(loss=..., optimizer=..., metrics=...)] *)
Definition compile (model : nat) (args : CompileArgs) : Py unit :=
  library_call
    (fun w =>
       match heap w !! model with
       | Some m =>
           inr (tt, set_heap (<[model := mk_ModelObj (topology m) (Some args)]> (heap w)) w)
       | None => inl AttributeError
       end)
    (fun _ => Model_compile model args).

(** What both training calls do that can be seen: Keras refuses a model
    that was not compiled, and it writes its report while it trains (the
    default [verbose=1]).  The weights it learns are not modelled. *)
Definition train (model : nat) (nb_epoch : Z) : World -> PyExc + unit * World :=
  fun w => match heap w !! model with
           | Some m =>
               match compiled m with
               | Some _ =>
                   inr (tt, mk_World (heap w) (uids w) (trace w)
                              (stdout w ++ [Progress nb_epoch]) (attempts w))
               | None => inl NotCompiled
               end
           | None => inl AttributeError
           end.

(** [model.fit(X, Y, batch_size=..., nb_epoch=..., validation_data=...,
    shuffle=...)] *)
Definition fit (model : nat) (X : ndarray4 float32) (Y : list (list Z))
    (batch_size nb_epoch : Z)
    (validation_data : ndarray4 float32 * list (list Z)) (shuffle : bool) : Py unit :=
  library_call (train model nb_epoch)
    (fun _ => Model_fit model X Y batch_size nb_epoch validation_data shuffle).

(** [ImageDataGenerator(...)] *)
Definition new_datagen (g : ImageDataGenerator) : Py ImageDataGenerator :=
  library_call (returns g) new_ImageDataGenerator.

(** [datagen.fit(X)] *)
Definition datagen_fit (g : ImageDataGenerator) (X : ndarray4 float32) : Py unit :=
  library_call (returns tt) (fun _ => ImageDataGenerator_fit g X).

(** [datagen.flow(X, Y, batch_size=...)] *)
Definition flow (g : ImageDataGenerator) (X : ndarray4 float32)
    (Y : list (list Z)) (batch_size : Z) : Py Flow :=
  library_call (returns (mk_Flow g X Y batch_size)) ImageDataGenerator_flow.

(** [model.fit_generator(generator, samples_per_epoch=..., nb_epoch=...,
    validation_data=...)] *)
Definition fit_generator (model : nat) (generator : Flow)
    (samples_per_epoch : nat) (nb_epoch : Z)
    (validation_data : ndarray4 float32 * list (list Z)) : Py unit :=
  library_call (train model nb_epoch)
    (fun _ => Model_fit_generator model generator samples_per_epoch nb_epoch
                validation_data).

(** ** The cells *)

(** First code cell: the constants, the data, its normalisation and the
    one-hot labels.  ([img_rows], [img_cols] and [img_channels] are
    assigned there and never read.) *)
Definition nb_classes : nat := 10.

Definition newline : string := String (Ascii.ascii_of_nat 10) "".

Definition cell_data (ds : Dataset)
    : Py (ndarray4 float32 * list (list Z) * ndarray4 float32 * list (list Z)) :=
  '((X_train, y_train), (X_test, y_test)) ← load_data ds;
  X_train ← astype X_train "float32" ≫= (fun X => truediv X 255);
  X_test ← astype X_test "float32" ≫= (fun X => truediv X 255);
  print ("X_train shape: " +:+ str_shape4 (shape X_train));;
  print ("Train samples: " +:+ str_nat (shape_0 X_train) +:+ newline
           +:+ "Test samples: " +:+ str_nat (shape_0 X_test) +:+ ".");;
  Y_train ← to_categorical y_train nb_classes;
  Y_test ← to_categorical y_test nb_classes;
  mret (X_train, Y_train, X_test, Y_test).

(** Second code cell: the network, layer by layer, on a [Sequential]. *)
Definition cell_sequential (X_train : ndarray4 float32) : Py nat :=
  model ← Sequential;

  new (Convolution2D 32 3 3 None (Some "same") (Some (shape_from_1 X_train)))
    ≫= add model;;
  new (Activation "relu") ≫= add model;;
  new (Convolution2D 32 3 3 None None None) ≫= add model;;
  new (Activation "relu") ≫= add model;;
  new (MaxPooling2D (2, 2)%nat) ≫= add model;;
  new (Dropout 0.25) ≫= add model;;

  new (Convolution2D 64 3 3 None (Some "same") None) ≫= add model;;
  new (Activation "relu") ≫= add model;;
  new (Convolution2D 64 3 3 None None None) ≫= add model;;
  new (Activation "relu") ≫= add model;;
  new (MaxPooling2D (2, 2)%nat) ≫= add model;;
  new (Dropout 0.25) ≫= add model;;

  new Flatten ≫= add model;;
  new (Dense 512 None) ≫= add model;;
  new (Activation "relu") ≫= add model;;
  new (Dropout 0.5) ≫= add model;;
  new (Dense nb_classes None) ≫= add model;;
  new (Activation "softmax") ≫= add model;;
  mret model.

(** Third code cell: the same network through the functional API. *)
Definition cell_functional (X_train : ndarray4 float32) : Py nat :=
  model_in ← Input (shape_from_1 X_train);

  x ← apply (Convolution2D 32 3 3 (Some "relu") (Some "same") None) model_in;
  x ← apply (Convolution2D 32 3 3 (Some "relu") None None) x;
  x ← apply (MaxPooling2D (2, 2)%nat) x;
  x ← apply (Dropout 0.25) x;

  x ← apply (Convolution2D 64 3 3 (Some "relu") (Some "same") None) x;
  x ← apply (Convolution2D 64 3 3 (Some "relu") None None) x;
  x ← apply (MaxPooling2D (2, 2)%nat) x;
  x ← apply (Dropout 0.25) x;

  x ← apply Flatten x;
  x ← apply (Dense 512 (Some "relu")) x;
  x ← apply (Dropout 0.5) x;
  x ← apply (Dense nb_classes None) x;
  model_out ← apply (Activation "softmax") x;

  Model model_in model_out.

(** Fourth code cell: [print(model.summary())]. *)
Definition cell_summary (model : nat) : Py unit :=
  model_summary model;;
  print "None".

(** Fifth code cell: the optimizer and the compilation. *)
Definition cell_compile (model : nat) : Py unit :=
  sgd ← new_sgd (mk_SGD 0.01 1e-6 0.9 true);
  compile model (mk_CompileArgs "categorical_crossentropy" sgd ["accuracy"]).

(** Seventh code cell: the training, with or without augmentation. *)
Definition cell_train (model : nat) (batch_size nb_epoch : Z)
    (data_augmentation : bool)
    (X_train : ndarray4 float32) (Y_train : list (list Z))
    (X_test : ndarray4 float32) (Y_test : list (list Z)) : Py unit :=
  if negb data_augmentation then
    print "Not using data augmentation.";;
    fit model X_train Y_train batch_size nb_epoch (X_test, Y_test) true
  else
    print "Using real-time data augmentation.";;
    datagen ← new_datagen (mk_ImageDataGenerator
      false  (* featurewise_center *)
      false  (* samplewise_center *)
      false  (* featurewise_std_normalization *)
      false  (* samplewise_std_normalization *)
      false  (* zca_whitening *)
      0      (* rotation_range *)
      0.1    (* width_shift_range *)
      0.1    (* height_shift_range *)
      true   (* horizontal_flip *)
      false  (* vertical_flip *));
    datagen_fit datagen X_train;;
    generator ← flow datagen X_train Y_train batch_size;
    fit_generator model generator (shape_0 X_train) nb_epoch (X_test, Y_test).

(** The cells in the order of the notebook.  The three training
    parameters of the sixth code cell are arguments here, so that the
    training cell can be studied for both values of the toggle.  The name
    [model] is bound twice, as in the notebook: from the third cell on it
    refers to the functional model. *)
Definition notebook_with (batch_size nb_epoch : Z) (data_augmentation : bool)
    (ds : Dataset) : Py unit :=
  '(X_train, Y_train, X_test, Y_test) ← cell_data ds;
  model ← cell_sequential X_train;
  model ← cell_functional X_train;
  cell_summary model;;
  cell_compile model;;
  cell_train model batch_size nb_epoch data_augmentation
    X_train Y_train X_test Y_test.

End Library.

(** Sixth code cell: the training parameters. *)
Definition batch_size : Z := 128.
Definition nb_epoch : Z := 200.
Definition data_augmentation : bool := true.

Definition notebook (fails : nat -> option PyExc) (ds : Dataset) : Py unit :=
  notebook_with fails batch_size nb_epoch data_augmentation ds.

(** A run in which the library never raises. *)
Definition no_failure : nat -> option PyExc := fun _ => None.

(** A run in which exactly the [n]-th library call raises [e]. *)
Definition fail_at (n : nat) (e : PyExc) : nat -> option PyExc :=
  fun i => if decide (i = n) then Some e else None.

(** A run in which the library raises [e] in its [n]-th call and in every
    call after it. *)
Definition fails_from (n : nat) (e : PyExc) : nat -> option PyExc :=
  fun i => if decide (n <= i)%nat then Some e else None.

(** ** What a model computes *)

Section Forward.

(** Tensors, the weights of one layer, and the numerical kernels of the
    backend are left open: nothing below depends on what they compute,
    only on which of them a model applies, in which order and with which
    parameters.  [dropout] stands for the layer's behaviour in the phase
    at hand (masking while training, identity at test time). *)
Variables T W : Type.
Variable conv2d : nat -> nat -> nat -> string -> W -> T -> T.
Variable dense : nat -> W -> T -> T.
Variable activation_fn : string -> T -> T.
Variable max_pool : nat * nat -> T -> T.
Variable dropout : Q -> T -> T.
Variable flatten : T -> T.

(** A layer created without [activation=...] applies none. *)
Definition apply_activation (a : option string) (x : T) : T :=
  match a with
  | Some name => activation_fn name x
  | None => x
  end.

(** One layer on one tensor.  Convolutions and dense layers take their
    weights from the front of the weight list. *)
Definition layer_forward (c : LayerConfig) (ws : list W) (x : T)
    : option (T * list W) :=
  match c with
  | InputLayer _ => Some (x, ws)
  | Convolution2D f kr kc a b _ =>
      match ws with
      | w :: ws' => Some (apply_activation a (conv2d f kr kc (border_mode_of b) w x), ws')
      | [] => None
      end
  | Activation name => Some (activation_fn name x, ws)
  | MaxPooling2D p => Some (max_pool p x, ws)
  | Dropout p => Some (dropout p x, ws)
  | Flatten => Some (flatten x, ws)
  | Dense n a =>
      match ws with
      | w :: ws' => Some (apply_activation a (dense n w x), ws')
      | [] => None
      end
  end.

Fixpoint layers_forward (ls : list Layer) (ws : list W) (x : T)
    : option (T * list W) :=
  match ls with
  | [] => Some (x, ws)
  | l :: ls' =>
      '(y, ws') ← layer_forward (config l) ws x;
      layers_forward ls' ws' y
  end.

(** The output of a model for weights [ws] (one entry per layer that has
    weights, in layer order, as [model.set_weights] takes them) and input
    [x]; there is none when the weights do not match the layers. *)
Definition predict (m : ModelObj) (ws : list W) (x : T) : option T :=
  ls ← model_layers m;
  '(y, rest) ← layers_forward ls ws x;
  match rest with
  | [] => Some y
  | _ :: _ => None
  end.

End Forward.

(** ** The architecture, in the words of the specification *)

(** The kinds of layer the specification names. *)
Inductive LayerKind : Type :=
| convolution (filters : nat)
| activation
| pooling
| dropout
| flatten
| dense (units : nat)
| softmax.

(** One block: convolution, activation, convolution, activation, pooling,
    dropout, at a given channel width. *)
Definition block (width : nat) : list LayerKind :=
  [convolution width; activation; convolution width; activation; pooling; dropout].

(** The whole stack: the block twice, 32 filters then 64, followed by
    flatten, dense (512), activation, dropout, dense (10), softmax. *)
Definition stated_architecture : list LayerKind :=
  block 32 ++ block 64 ++ [flatten; dense 512; activation; dropout; dense 10; softmax].

(** The kinds a layer of the code stands for.  A convolution or dense layer
    created with [activation=...] stands for two, itself and the activation
    it applies; the placeholder of the functional API stands for none. *)
Definition activation_kind (name : string) : LayerKind :=
  if String.eqb name "softmax" then softmax else activation.

Definition kinds (c : LayerConfig) : list LayerKind :=
  match c with
  | InputLayer _ => []
  | Convolution2D f _ _ a _ _ => convolution f :: option_list (activation_kind <$> a)
  | Activation name => [activation_kind name]
  | MaxPooling2D _ => [pooling]
  | Dropout _ => [dropout]
  | Flatten => [flatten]
  | Dense n a => dense n :: option_list (activation_kind <$> a)
  end.

Definition architecture (ls : list Layer) : list LayerKind :=
  flat_map (fun l => kinds (config l)) ls.

(** The same unfolding with every parameter kept: a layer with a built-in
    activation becomes the bare layer followed by an [Activation] layer. *)
Definition unfused (c : LayerConfig) : list LayerConfig :=
  match c with
  | InputLayer _ => []
  | Convolution2D f kr kc a b _ =>
      Convolution2D f kr kc None (Some (border_mode_of b)) None
        :: option_list (Activation <$> a)
  | Dense n a => Dense n None :: option_list (Activation <$> a)
  | _ => [c]
  end.

Definition operations (ls : list Layer) : list LayerConfig :=
  flat_map (fun l => unfused (config l)) ls.

(** ** Data sets the notebook is meant for *)

Definition valid_label (t : Z) : Prop := 0 <= t < Z.of_nat nb_classes.

(** A row with a single 1, at the index of label [t], and 0 elsewhere. *)
Definition one_hot_at (t : Z) (row : list Z) : Prop :=
  length row = nb_classes
  /\ row !! Z.to_nat t = Some 1
  /\ forall j, j <> Z.to_nat t -> (j < nb_classes)%nat -> row !! j = Some 0.

(** CIFAR-10-like data: 32 x 32 colour images, labels that are class
    indices.  The number of images and the pixels are arbitrary. *)
Definition cifar_like (ds : Dataset) : Prop :=
  let '((X_train, y_train), (X_test, y_test)) := ds in
  shape_from_1 X_train = (32, 32, 3)%nat
  /\ Forall valid_label y_train /\ Forall valid_label y_test.

(** The world a run leaves behind, and how the run ended. *)
Definition final (fails : nat -> option PyExc) (ds : Dataset) : World :=
  snd (notebook fails ds initial).
Definition outcome (fails : nat -> option PyExc) (ds : Dataset) : Outcome unit :=
  fst (notebook fails ds initial).

(** A small data set to run the notebook on: two training images and one
    test image of the right shape. *)
Definition sample_images (n : nat) : ndarray4 Z :=
  mk_ndarray4 (n, 32, 32, 3)%nat
    (map (fun i => Z.of_nat i mod 256) (seq 0 (n * 32 * 32 * 3))).
Definition sample_dataset : Dataset :=
  ((sample_images 2, [3; 0]), (sample_images 1, [9])).

(** ** The run without failures, written out *)

(** The layer objects the second cell creates, with the names Keras gives
    them, in the order they are added. *)
Definition sequential_stack (input_shape : nat * nat * nat) : list Layer :=
  [ mk_Layer ("convolution2d", 1%nat)
      (Convolution2D 32 3 3 None (Some "same") (Some input_shape));
    mk_Layer ("activation", 1%nat) (Activation "relu");
    mk_Layer ("convolution2d", 2%nat) (Convolution2D 32 3 3 None None None);
    mk_Layer ("activation", 2%nat) (Activation "relu");
    mk_Layer ("maxpooling2d", 1%nat) (MaxPooling2D (2, 2)%nat);
    mk_Layer ("dropout", 1%nat) (Dropout 0.25);
    mk_Layer ("convolution2d", 3%nat) (Convolution2D 64 3 3 None (Some "same") None);
    mk_Layer ("activation", 3%nat) (Activation "relu");
    mk_Layer ("convolution2d", 4%nat) (Convolution2D 64 3 3 None None None);
    mk_Layer ("activation", 4%nat) (Activation "relu");
    mk_Layer ("maxpooling2d", 2%nat) (MaxPooling2D (2, 2)%nat);
    mk_Layer ("dropout", 2%nat) (Dropout 0.25);
    mk_Layer ("flatten", 1%nat) Flatten;
    mk_Layer ("dense", 1%nat) (Dense 512 None);
    mk_Layer ("activation", 5%nat) (Activation "relu");
    mk_Layer ("dropout", 3%nat) (Dropout 0.5);
    mk_Layer ("dense", 2%nat) (Dense 10 None);
    mk_Layer ("activation", 6%nat) (Activation "softmax") ].

(** The placeholder and the layer objects of the third cell, in the order
    they are applied. *)
Definition functional_input (input_shape : nat * nat * nat) : Layer :=
  mk_Layer ("input", 1%nat) (InputLayer input_shape).

Definition functional_chain : list Layer :=
  [ mk_Layer ("convolution2d", 5%nat)
      (Convolution2D 32 3 3 (Some "relu") (Some "same") None);
    mk_Layer ("convolution2d", 6%nat) (Convolution2D 32 3 3 (Some "relu") None None);
    mk_Layer ("maxpooling2d", 3%nat) (MaxPooling2D (2, 2)%nat);
    mk_Layer ("dropout", 4%nat) (Dropout 0.25);
    mk_Layer ("convolution2d", 7%nat)
      (Convolution2D 64 3 3 (Some "relu") (Some "same") None);
    mk_Layer ("convolution2d", 8%nat) (Convolution2D 64 3 3 (Some "relu") None None);
    mk_Layer ("maxpooling2d", 4%nat) (MaxPooling2D (2, 2)%nat);
    mk_Layer ("dropout", 5%nat) (Dropout 0.25);
    mk_Layer ("flatten", 2%nat) Flatten;
    mk_Layer ("dense", 3%nat) (Dense 512 (Some "relu"));
    mk_Layer ("dropout", 6%nat) (Dropout 0.5);
    mk_Layer ("dense", 4%nat) (Dense 10 None);
    mk_Layer ("activation", 7%nat) (Activation "softmax") ].

Definition functional_output (input_shape : nat * nat * nat) : Tensor :=
  fold_left (fun x l => Output_of l x) functional_chain
    (Placeholder (functional_input input_shape)).

Definition sgd_of_notebook : SGD := mk_SGD 0.01 1e-6 0.9 true.

Definition compile_args_of_notebook : CompileArgs :=
  mk_CompileArgs "categorical_crossentropy" sgd_of_notebook ["accuracy"].

Definition datagen_of_notebook : ImageDataGenerator :=
  mk_ImageDataGenerator false false false false false 0 0.1 0.1 true false.

(** The two model objects at the end of the run: the [Sequential]
    instance, never compiled, and the functional [Model], compiled. *)
Definition sequential_object (input_shape : nat * nat * nat) : ModelObj :=
  mk_ModelObj (Stack (sequential_stack input_shape)) None.

Definition functional_object (input_shape : nat * nat * nat) : ModelObj :=
  mk_ModelObj
    (Graph (Placeholder (functional_input input_shape)) (functional_output input_shape))
    (Some compile_args_of_notebook).

(** The library calls of each cell. *)
Definition data_calls : list Event :=
  [ cifar10_load_data;
    ndarray_astype "float32"; ndarray_truediv 255;
    ndarray_astype "float32"; ndarray_truediv 255;
    np_utils_to_categorical 10; np_utils_to_categorical 10 ].

Definition sequential_calls (input_shape : nat * nat * nat) : list Event :=
  new_Sequential 0
    :: flat_map (fun l => [new_layer l; Sequential_add 0 l]) (sequential_stack input_shape).

Definition functional_calls (input_shape : nat * nat * nat) : list Event :=
  new_layer (functional_input input_shape)
    :: flat_map (fun l => [new_layer l; layer_call l]) functional_chain
    ++ [new_Model 1].

Definition summary_calls : list Event := [Model_summary 1].

Definition compile_calls : list Event :=
  [new_SGD sgd_of_notebook; Model_compile 1 compile_args_of_notebook].

Definition training_calls (batch_size nb_epoch : Z) (data_augmentation : bool)
    (X_train : ndarray4 float32) (Y_train : list (list Z))
    (X_test : ndarray4 float32) (Y_test : list (list Z)) : list Event :=
  if data_augmentation then
    let generator := mk_Flow datagen_of_notebook X_train Y_train batch_size in
    [ new_ImageDataGenerator datagen_of_notebook;
      ImageDataGenerator_fit datagen_of_notebook X_train;
      ImageDataGenerator_flow generator;
      Model_fit_generator 1 generator (shape_0 X_train) nb_epoch (X_test, Y_test) ]
  else
    [ Model_fit 1 X_train Y_train batch_size nb_epoch (X_test, Y_test) true ].

(** The table the fourth cell prints, as the notebook records it. *)
Definition recorded_summary : list SummaryRow :=
  [ mk_SummaryRow ("input", 1%nat) "InputLayer" [32; 32; 3]%nat 0;
    mk_SummaryRow ("convolution2d", 5%nat) "Convolution2D" [32; 32; 32]%nat 896;
    mk_SummaryRow ("convolution2d", 6%nat) "Convolution2D" [30; 30; 32]%nat 9248;
    mk_SummaryRow ("maxpooling2d", 3%nat) "MaxPooling2D" [15; 15; 32]%nat 0;
    mk_SummaryRow ("dropout", 4%nat) "Dropout" [15; 15; 32]%nat 0;
    mk_SummaryRow ("convolution2d", 7%nat) "Convolution2D" [15; 15; 64]%nat 18496;
    mk_SummaryRow ("convolution2d", 8%nat) "Convolution2D" [13; 13; 64]%nat 36928;
    mk_SummaryRow ("maxpooling2d", 4%nat) "MaxPooling2D" [6; 6; 64]%nat 0;
    mk_SummaryRow ("dropout", 5%nat) "Dropout" [6; 6; 64]%nat 0;
    mk_SummaryRow ("flatten", 2%nat) "Flatten" [2304]%nat 0;
    mk_SummaryRow ("dense", 3%nat) "Dense" [512]%nat 1180160;
    mk_SummaryRow ("dropout", 6%nat) "Dropout" [512]%nat 0;
    mk_SummaryRow ("dense", 4%nat) "Dense" [10]%nat 5130;
    mk_SummaryRow ("activation", 7%nat) "Activation" [10]%nat 0 ].

Definition printed (data_augmentation : bool) (X_train X_test : ndarray4 Z)
    : list Printed :=
  [ Text ("X_train shape: " +:+ str_shape4 (shape X_train));
    Text ("Train samples: " +:+ str_nat (shape_0 X_train) +:+ newline
            +:+ "Test samples: " +:+ str_nat (shape_0 X_test) +:+ ".");
    Table recorded_summary 1250858;
    Text "None";
    Text (if data_augmentation then "Using real-time data augmentation."
          else "Not using data augmentation.") ].

(** What is to be seen of the world after the first cell. *)
Definition after_data (X_train X_test : ndarray4 Z) : Snapshot :=
  mk_Snapshot [] ∅ data_calls (take 2 (printed true X_train X_test)).

Definition final_uids : gmap string nat :=
  list_to_map
    [ ("convolution2d", 8%nat); ("activation", 7%nat); ("maxpooling2d", 4%nat);
      ("dropout", 6%nat); ("flatten", 2%nat); ("dense", 4%nat); ("input", 1%nat) ].

(** What is to be seen of the world after the last cell: the two model
    objects, the calls of the six cells, and the printed lines followed by
    the report of the training. *)
Definition expected_final (batch_size nb_epoch : Z) (data_augmentation : bool)
    (X_train : ndarray4 Z) (Y_train : list (list Z))
    (X_test : ndarray4 Z) (Y_test : list (list Z)) : Snapshot :=
  let s := shape_from_1 X_train in
  mk_Snapshot
    [sequential_object s; functional_object s]
    final_uids
    (data_calls ++ sequential_calls s ++ functional_calls s
       ++ summary_calls ++ compile_calls
       ++ training_calls batch_size nb_epoch data_augmentation
            (normalize X_train) Y_train (normalize X_test) Y_test)
    (printed data_augmentation X_train X_test ++ [Progress nb_epoch]).

(** ** Reading a trace *)

(** The model object a call is made on, or creates. *)
Definition target (ev : Event) : option nat :=
  match ev with
  | new_Sequential id | Sequential_add id _ | new_Model id | Model_summary id
  | Model_compile id _ | Model_fit id _ _ _ _ _ _
  | Model_fit_generator id _ _ _ _ => Some id
  | _ => None
  end.

Definition calls_on (id : nat) (tr : list Event) : list Event :=
  filter (fun ev => target ev = Some id) tr.

Definition is_new_Model (ev : Event) : bool :=
  match ev with new_Model _ => true | _ => false end.

(** The part of a trace from the creation of the functional model on. *)
Fixpoint since_new_Model (tr : list Event) : list Event :=
  match tr with
  | [] => []
  | ev :: tr' => if is_new_Model ev then tr else since_new_Model tr'
  end.

Definition compilations (tr : list Event) : list (nat * CompileArgs) :=
  omap (fun ev => match ev with Model_compile id a => Some (id, a) | _ => None end) tr.

Definition is_training_call (ev : Event) : bool :=
  match ev with
  | new_ImageDataGenerator _ | ImageDataGenerator_fit _ _ | ImageDataGenerator_flow _
  | Model_fit _ _ _ _ _ _ _ | Model_fit_generator _ _ _ _ _ => true
  | _ => false
  end.

Definition training_part (tr : list Event) : list Event :=
  filter (fun ev => is_training_call ev = true) tr.

Definition optimizers (tr : list Event) : list SGD :=
  omap (fun ev => match ev with new_SGD sgd => Some sgd | _ => None end) tr.

(** The calls of a trace that are made on a model object, whichever. *)
Definition model_calls (tr : list Event) : list Event :=
  filter (fun ev => is_Some (target ev)) tr.

(** ** What the generator does to an image *)

(** The transformations the ten arguments switch on, named after the
    comments the notebook puts on the arguments. *)
Inductive Transformation : Type :=
| rotation (max_degrees : Q)
| horizontal_shift (max_fraction : Q)
| vertical_shift (max_fraction : Q)
| horizontal_flipping
| vertical_flipping
| samplewise_centering
| samplewise_std_scaling
| featurewise_centering
| featurewise_std_scaling
| zca.

Definition when_set (b : bool) (t : Transformation) : list Transformation :=
  if b then [t] else [].

(** A range enables its transformation unless it is zero. *)
Definition when_nonzero (r : Q) (t : Q -> Transformation) : list Transformation :=
  if Qeq_bool r 0 then [] else [t r].

(** Modelled from the spec: [ImageDataGenerator] is Keras code, absent from
    the notebook; what each argument enables is taken from the comment the
    notebook puts on it (random rotation within the range, random shifts by
    a fraction of the width or height, random flips, centering, division by
    the standard deviation, ZCA whitening).  The random transformations come
    first, the normalisations after them. *)
Definition enabled (g : ImageDataGenerator) : list Transformation :=
  when_nonzero (rotation_range g) rotation
  ++ when_nonzero (width_shift_range g) horizontal_shift
  ++ when_nonzero (height_shift_range g) vertical_shift
  ++ when_set (horizontal_flip g) horizontal_flipping
  ++ when_set (vertical_flip g) vertical_flipping
  ++ when_set (samplewise_center g) samplewise_centering
  ++ when_set (samplewise_std_normalization g) samplewise_std_scaling
  ++ when_set (featurewise_center g) featurewise_centering
  ++ when_set (featurewise_std_normalization g) featurewise_std_scaling
  ++ when_set (zca_whitening g) zca.

(** What is drawn at random for one image: an angle, the two shifts as
    fractions of the width and of the height, and the two coins. *)
Record Draw : Type := mk_Draw {
  angle : Q;
  shift_w : Q;
  shift_h : Q;
  coin_h : bool;
  coin_v : bool
}.

(** A draw the generator can make: every amount within its range. *)
Definition drawn_by (g : ImageDataGenerator) (d : Draw) : Prop :=
  (Qabs (angle d) <= rotation_range g)%Q
  /\ (Qabs (shift_w d) <= width_shift_range g)%Q
  /\ (Qabs (shift_h d) <= height_shift_range g)%Q.

Section Augmentation.

(** Images and the image operations are left open. *)
Variable Image : Type.
Variable rotate : Q -> Image -> Image.
Variable shift_horizontally shift_vertically : Q -> Image -> Image.
Variable flip_horizontally flip_vertically : Image -> Image.
Variable center_sample scale_sample center_feature scale_feature whiten : Image -> Image.

Definition transform (d : Draw) (t : Transformation) (x : Image) : Image :=
  match t with
  | rotation _ => rotate (angle d) x
  | horizontal_shift _ => shift_horizontally (shift_w d) x
  | vertical_shift _ => shift_vertically (shift_h d) x
  | horizontal_flipping => if coin_h d then flip_horizontally x else x
  | vertical_flipping => if coin_v d then flip_vertically x else x
  | samplewise_centering => center_sample x
  | samplewise_std_scaling => scale_sample x
  | featurewise_centering => center_feature x
  | featurewise_std_scaling => scale_feature x
  | zca => whiten x
  end.

(** Modelled from the spec: the augmented image is the original with the
    enabled transformations applied in turn. *)
Definition augment (g : ImageDataGenerator) (d : Draw) (x : Image) : Image :=
  fold_left (fun x t => transform d t x) (enabled g) x.

End Augmentation.

Definition generators (tr : list Event) : list ImageDataGenerator :=
  omap (fun ev => match ev with new_ImageDataGenerator g => Some g | _ => None end) tr.

(** ** Following a failure through a program *)

(** The number of library calls a run attempted: those that returned and,
    when the run ended in an exception, the one that raised it. *)
Definition attempted {A} (r : Outcome A * World) : nat :=
  length (trace (snd r)) + match fst r with Ok _ => 0 | Raise _ => 1 end.

(** A world in which every call made so far has returned. *)
Definition in_step (w : World) : Prop :=
  length (attempts w) = length (trace w).

(** What a run leaves behind when call [n], the first to raise, raises [e]
    and nothing is done about it: the exception itself; the trace and the
    calls the run without failures [r] had made before its call [n]; then
    the call that raised, as the last thing that happened; and a world that
    is still the one that call was made in, which is the world in which
    the run without failures makes its call [n]. *)
Definition stops_at {A} (n : nat) (e : PyExc) (r : Outcome A * World)
    (r' : Outcome A * World) : Prop :=
  exists w',
    r' = (Raise e, w')
    /\ trace w' = take n (trace (snd r))
    /\ attempts w' = take n (attempts (snd r)) ++ [mk_Attempt (snapshot w') (Some e)]
    /\ made_in <$> attempts (snd r) !! n = Some (snapshot w').

(** A program [m], given the failure pattern of the run, tracks the
    failure [e] of call [n] when, from any world in which every call has
    returned and call [n] has not been made yet, it behaves as follows.
    If the run without failures attempts at most [n] calls, the run under
    [fails] is that very run.  Otherwise the run under [fails] stops at
    call [n], as [stops_at] says.  In any case a run only extends the trace
    and the record of the calls made, and it has made as many calls as it
    attempted. *)
Definition tracks {A} (fails : nat -> option PyExc) (n : nat) (e : PyExc)
    (m : (nat -> option PyExc) -> Py A) : Prop :=
  forall w,
    in_step w ->
    let r := m no_failure w in
    trace w `prefix_of` trace (snd r)
    /\ attempts w `prefix_of` attempts (snd r)
    /\ length (attempts (snd r)) = attempted r
    /\ (length (trace w) <= n ->
        if decide (attempted r <= n) then m fails w = r
        else stops_at n e r (m fails w))%nat.

(** Programs that do catch, for contrast.  The first wraps a call in
    [try: ... except: pass]; the second runs the notebook again when it
    has failed; the third tidies up, says so, and raises the exception
    again. *)
Definition swallowing (fails : nat -> option PyExc) (ds : Dataset) : Py unit :=
  try_except (load_data fails ds ≫= fun _ => mret tt) (fun _ => mret tt).

Definition retrying (fails : nat -> option PyExc) (ds : Dataset) : Py unit :=
  try_except (notebook fails ds) (fun _ => notebook fails ds).

Definition forget_models : Py unit := fun w => (Ok tt, set_heap [] w).

Definition cleaning_up (fails : nat -> option PyExc) (ds : Dataset) : Py unit :=
  try_except (notebook fails ds)
    (fun e => forget_models;; print "cleaning up";; raise e).

(** The number of library calls of a complete run of the notebook. *)
Definition calls_of_a_run : nat := 79.

(** ** Order of the stored pixels *)

(** IEEE comparison of two single-precision numbers. *)
Definition float32_ltb (x y : float32) : bool :=
  SFltb x y.

(** The test that a smaller pixel is stored as a smaller number. *)
Definition stored_in_order (p q : Z) : bool :=
  if p <? q then float32_ltb (normalize_pixel p) (normalize_pixel q) else true.

(** An image array of the data set's element type: every element is a
    byte. *)
Definition uint8_array (X : ndarray4 Z) : Prop :=
  Forall (fun p => 0 <= p <= 255) (flat X).

(** ** Reading one-hot rows back *)

(** The class a one-hot row stands for: the position of its first 1. *)
Definition label_of (row : list Z) : option nat :=
  fst <$> list_find (fun v => v = 1) row.

Definition row_sum (row : list Z) : Z := foldr Z.add 0 row.

(** A row of [n] entries, each 0 or 1, that sum to 1. *)
Definition one_hot_row (n : nat) (row : list Z) : Prop :=
  length row = n /\ Forall (fun v => v = 0 \/ v = 1) row /\ row_sum row = 1.

(** ** Runs under an arbitrary failure pattern *)

(** A program is undisturbed by a failure pattern whose first [n] entries
    are empty when every run of it that starts with every call returned and
    attempts at most [n] calls is the run without failures. *)
Definition undisturbed {A} (fails : nat -> option PyExc) (n : nat)
    (m : (nat -> option PyExc) -> Py A) : Prop :=
  forall w,
    in_step w ->
    let r := m no_failure w in
    trace w `prefix_of` trace (snd r)
    /\ length (attempts (snd r)) = attempted r
    /\ ((attempted r <= n)%nat -> m fails w = r).

(** The model a call trains, if it is a training call. *)
Definition trains (ev : Event) : option nat :=
  match ev with
  | Model_fit id _ _ _ _ _ _ | Model_fit_generator id _ _ _ _ => Some id
  | _ => None
  end.

(** A trace in which every training call on a model comes after a
    [compile] of that model; [compiled_so_far] are the models compiled
    before the trace starts. *)
Fixpoint trains_compiled_only (compiled_so_far : list nat) (tr : list Event) : bool :=
  match tr with
  | [] => true
  | ev :: tr' =>
      match ev with
      | Model_compile id _ => trains_compiled_only (id :: compiled_so_far) tr'
      | _ =>
          match trains ev with
          | Some id => bool_decide (id ∈ compiled_so_far)
                       && trains_compiled_only compiled_so_far tr'
          | None => trains_compiled_only compiled_so_far tr'
          end
      end
  end.

(** The layers a trace creates, in the order of their creation. *)
Definition created (tr : list Event) : list Layer :=
  omap (fun ev => match ev with new_layer l => Some l | _ => None end) tr.

(** ** Images of other sizes *)

(** Width or height after the two blocks: a 3 x 3 ['valid'] convolution
    takes two off, a 2 x 2 pooling halves, and both happen twice. *)
Definition reduced (d : nat) : nat := ((d - 3 + 1) / 2 - 3 + 1) / 2.

(** The images the network is large enough for. *)
Definition fits (s : nat * nat * nat) : Prop :=
  let '(rows, cols, _) := s in (10 <= rows)%nat /\ (10 <= cols)%nat.

(** The number of weights of the network on images of shape [s]: the four
    convolutions, the dense layer behind the flattening, and the output
    layer. *)
Definition weights_for (s : nat * nat * nat) : N :=
  let '(rows, cols, ch) := s in
  (N.of_nat (3 * 3 * ch * 32 + 32) + 9248 + 18496 + 36928
   + (N.of_nat (reduced rows * reduced cols * 64) * 512 + 512) + 5130)%N.

(** What is to be seen at the end of a run in which the summary printed
    [rows]. *)
Definition final_with (rows : list SummaryRow) (batch_size nb_epoch : Z)
    (data_augmentation : bool)
    (X_train : ndarray4 Z) (Y_train : list (list Z))
    (X_test : ndarray4 Z) (Y_test : list (list Z)) : Snapshot :=
  let w := expected_final batch_size nb_epoch data_augmentation
             X_train Y_train X_test Y_test in
  mk_Snapshot (snap_heap w) (snap_uids w) (snap_trace w)
    (<[2%nat := Table rows (total_params rows)]> (snap_stdout w)).

(** * Properties *)

(** ** Normalisation of the images *)

Lemma uint8_values_spec (p : Z) : 0 <= p <= 255 -> In p uint8_values.
Proof.
  intros Hp. unfold uint8_values.
  apply in_map_iff. exists (Z.to_nat p). split; [lia|].
  apply in_seq. lia.
Qed.

Lemma pixel_check_all : forallb pixel_check uint8_values = true.
Proof. vm_compute. reflexivity. Qed.

Lemma pixel_check_sound (p : Z) :
  pixel_check p = true -> normalized_as p (normalize_pixel p).
Proof.
  unfold pixel_check, normalized_as.
  destruct (Float32.to_Q (normalize_pixel p)) as [v|]; [|discriminate].
  rewrite !andb_true_iff, !Qle_bool_iff.
  intros [[[[[Hvalid H0] H1] Hulp] Herr] Hex].
  exists v. repeat split; try assumption.
  - intros Heq. apply Qeq_bool_iff in Heq. rewrite Heq in Hex.
    apply Bool.eqb_prop in Hex. symmetry in Hex.
    apply orb_true_iff in Hex. lia.
  - intros Hp. apply Qeq_bool_iff.
    destruct (Qeq_bool v (exact_ratio p)); [reflexivity|].
    apply Bool.eqb_prop in Hex. symmetry in Hex.
    apply orb_false_iff in Hex. lia.
Qed.

Lemma normalize_pixel_spec (p : Z) :
  0 <= p <= 255 -> normalized_as p (normalize_pixel p).
Proof.
  intros Hp. apply pixel_check_sound.
  pose proof pixel_check_all as H.
  rewrite forallb_forall in H. apply H, uint8_values_spec, Hp.
Qed.

Lemma normalize_lookup (X : ndarray4 Z) (i : nat) :
  flat (normalize X) !! i = normalize_pixel <$> flat X !! i.
Proof.
  unfold normalize, ndarray_div, astype_float32. simpl.
  rewrite map_map. apply (list_lookup_fmap normalize_pixel).
Qed.

(** C3, as the code has it: the two image arrays keep their shape and their
    number of elements, and a pixel [p] of 0..255 is stored as the float32
    nearest to [p/255]: a number of [0,1] within half a unit in the last
    place (at most [2^-25]) of [p/255], equal to [p/255] only for [p = 0]
    and [p = 255]. *)
Theorem normalize_spec (X : ndarray4 Z) :
  (forall p, In p (flat X) -> 0 <= p <= 255) ->
  shape (normalize X) = shape X
  /\ length (flat (normalize X)) = length (flat X)
  /\ (well_shaped X -> well_shaped (normalize X))
  /\ forall i p, flat X !! i = Some p ->
       exists x, flat (normalize X) !! i = Some x /\ normalized_as p x.
Proof.
  intros Hrange. split; [reflexivity|].
  assert (Hlen : length (flat (normalize X)) = length (flat X)).
  { unfold normalize, ndarray_div, astype_float32. simpl.
    now rewrite !length_map. }
  split; [exact Hlen|]. split.
  - unfold well_shaped. change (shape (normalize X)) with (shape X).
    now rewrite Hlen.
  - intros i p Hi. exists (normalize_pixel p). split.
    + rewrite normalize_lookup, Hi. reflexivity.
    + apply normalize_pixel_spec, Hrange.
      apply list_elem_of_In. eapply list_elem_of_lookup_2, Hi.
Qed.

Lemma normalize_spec_witness :
  let X := mk_ndarray4 (1, 1, 2, 3)%nat [0; 1; 127; 128; 254; 255] in
  shape (normalize X) = shape X
  /\ length (flat (normalize X)) = length (flat X)
  /\ (well_shaped X -> well_shaped (normalize X))
  /\ forall i p, flat X !! i = Some p ->
       exists x, flat (normalize X) !! i = Some x /\ normalized_as p x.
Proof.
  apply (normalize_spec (mk_ndarray4 (1, 1, 2, 3)%nat [0; 1; 127; 128; 254; 255])).
  simpl. intros p Hp. lia.
Defined.

(** The two end points are stored exactly, everything between them is
    rounded: 255 becomes 1.0, 0 becomes 0.0, and 1 becomes
    [8421505 * 2^-31] (the float32 [0x3B808081]). *)
Example normalize_pixel_values :
  normalize_pixel 0 = S754_zero false
  /\ normalize_pixel 255 = S754_finite false 8388608 (-23)
  /\ normalize_pixel 1 = S754_finite false 8421505 (-31)
  /\ Float32.to_Q (normalize_pixel 255) = Some (8388608 # 8388608)%Q.
Proof. repeat split; reflexivity. Qed.

(** C3 as stated fails: the pixel value 1 is stored as [8421505 / 2^31],
    which is not [1/255]. *)
Lemma normalize_not_exact :
  let X := mk_ndarray4 (1, 1, 1, 1)%nat [1] in
  exists x v,
    flat (normalize X) !! 0%nat = Some x
    /\ Float32.to_Q x = Some v
    /\ ~ (v == exact_ratio 1)%Q.
Proof.
  exists (S754_finite false 8421505 (-31)), (8421505 # 2147483648)%Q.
  split; [reflexivity|]. split; [reflexivity|].
  intros H. apply Qeq_bool_iff in H. vm_compute in H. discriminate.
Qed.

(** ** One-hot labels *)

Lemma one_hot_valid (t : Z) :
  valid_label t ->
  exists row, np_utils.one_hot nb_classes t = Some row /\ one_hot_at t row.
Proof.
  intros Ht. unfold np_utils.one_hot.
  rewrite decide_True by exact Ht.
  eexists. split; [reflexivity|].
  unfold valid_label in Ht. repeat split.
  - now rewrite length_insert, length_replicate.
  - apply list_lookup_insert_eq. rewrite length_replicate. lia.
  - intros j Hne Hlt.
    rewrite list_lookup_insert_ne by congruence.
    now apply lookup_replicate_2.
Qed.

Lemma to_categorical_total (y : list Z) :
  Forall valid_label y ->
  exists Y, np_utils.to_categorical y nb_classes = Some Y.
Proof.
  intros Hy. apply (mapM_is_Some_2 (np_utils.one_hot nb_classes)).
  eapply Forall_impl; [exact Hy|].
  intros t Ht. destruct (one_hot_valid t Ht) as (row & Hrow & _).
  simpl. rewrite Hrow. now eexists.
Qed.

(** C4: with [nb_classes = 10], the conversion of a vector of labels in
    0..9 succeeds and yields one row per label; the row of label [t] has
    length 10, a 1 at index [t] and 0 at every other index. *)
Theorem to_categorical_one_hot (y : list Z) :
  Forall valid_label y ->
  exists Y,
    np_utils.to_categorical y nb_classes = Some Y
    /\ length Y = length y
    /\ forall i t, y !! i = Some t ->
         exists row, Y !! i = Some row /\ one_hot_at t row.
Proof.
  intros Hy. destruct (to_categorical_total y Hy) as [Y HY].
  exists Y. split; [exact HY|].
  apply mapM_Some_1 in HY. split.
  - symmetry. eapply Forall2_length, HY.
  - intros i t Hi.
    destruct (Forall2_lookup_l _ _ _ _ _ HY Hi) as (row & Hrow & Hone).
    exists row. split; [exact Hrow|].
    assert (Ht : valid_label t).
    { rewrite Forall_forall in Hy. eapply Hy, list_elem_of_lookup_2, Hi. }
    destruct (one_hot_valid t Ht) as (row' & Hrow' & Hspec).
    congruence.
Qed.

Lemma to_categorical_one_hot_witness :
  exists Y,
    np_utils.to_categorical [3; 0; 9] nb_classes = Some Y
    /\ length Y = length [3; 0; 9]
    /\ forall i t, [3; 0; 9] !! i = Some t ->
         exists row, Y !! i = Some row /\ one_hot_at t row.
Proof.
  apply (to_categorical_one_hot [3; 0; 9]).
  repeat constructor; unfold nb_classes; simpl; lia.
Defined.

(** The example of the notebook's prose: with ten classes the target 3
    becomes [0, 0, 0, 1, 0, 0, 0, 0, 0, 0]. *)
Example to_categorical_3 :
  np_utils.to_categorical [3] nb_classes = Some [[0; 0; 0; 1; 0; 0; 0; 0; 0; 0]].
Proof. reflexivity. Qed.

(** ** The run without failures *)

(** A computation that returns hands its value and world to what follows. *)
Lemma bind_ok {A B} (m : Py A) (k : A -> Py B) (w w' : World) (a : A) :
  m w = (Ok a, w') -> (m ≫= k) w = k a w'.
Proof. intros H. unfold mbind, Py_bind, bind. now rewrite H. Qed.

(** A run that returns, written with the world it leaves: what is to be
    seen of it, and the record of the calls made. *)
Lemma run_seen {A} (r : Outcome A * World) (a : A) (s : Snapshot) :
  fst r = Ok a ->
  snapshot (snd r) = s ->
  r = (Ok a, mk_World (snap_heap s) (snap_uids s) (snap_trace s) (snap_stdout s)
               (attempts (snd r))).
Proof. destruct r as [o [h u t out att]]. simpl. now intros -> <-. Qed.

(** The first cell, when both label vectors convert. *)
Lemma cell_data_runs (X : ndarray4 Z) (y : list Z) (X' : ndarray4 Z) (y' : list Z)
    (Y Y' : list (list Z)) :
  np_utils.to_categorical y nb_classes = Some Y ->
  np_utils.to_categorical y' nb_classes = Some Y' ->
  let r := cell_data no_failure ((X, y), (X', y')) initial in
  fst r = Ok (normalize X, Y, normalize X', Y')
  /\ snapshot (snd r) = after_data X X'.
Proof.
  intros HY HY'.
  unfold cell_data, to_categorical, library_call, mbind, Py_bind, bind. simpl.
  rewrite HY. simpl. rewrite HY'. split; reflexivity.
Qed.

(** The record of the calls made plays no part in a run without
    failures. *)
Ltac forget_attempts :=
  cbn [snap_heap snap_uids snap_trace snap_stdout];
  match goal with
  | |- context [attempts (snd ?r)] => generalize (attempts (snd r)); intro
  end.

(** Runs the first cell of the notebook in the goal. *)
Ltac run_cell_data HY HY' :=
  unfold notebook_with;
  rewrite (bind_ok _ _ _ _ _
             (run_seen _ _ _ (proj1 (cell_data_runs _ _ _ _ _ _ HY HY'))
                             (proj2 (cell_data_runs _ _ _ _ _ _ HY HY'))));
  unfold after_data; forget_attempts.

(** The pixels and the printed lines play no part in what the later cells
    do; they are abstracted before the cells are run. *)
Ltac abstract_arrays :=
  unfold expected_final, printed;
  unfold normalize, ndarray_div, astype_float32;
  cbn [shape flat take];
  repeat match goal with
         | |- context [map ?f (map ?g ?l)] => generalize (map f (map g l)); intro
         | |- context [Text (String.append ?a ?b)] => generalize (String.append a b); intro
         end.

Lemma notebook_run_explicit (bs ne : Z) (aug : bool) (n : nat) (px : list Z)
    (y : list Z) (X' : ndarray4 Z) (y' : list Z) (Y Y' : list (list Z)) :
  np_utils.to_categorical y nb_classes = Some Y ->
  np_utils.to_categorical y' nb_classes = Some Y' ->
  let r := notebook_with no_failure bs ne aug
             ((mk_ndarray4 (n, 32, 32, 3)%nat px, y), (X', y')) initial in
  fst r = Ok tt
  /\ snapshot (snd r)
     = expected_final bs ne aug (mk_ndarray4 (n, 32, 32, 3)%nat px) Y X' Y'.
Proof.
  intros HY HY'. cbn zeta. run_cell_data HY HY'.
  abstract_arrays.
  destruct aug; split; vm_compute; reflexivity.
Qed.

(** The labels of CIFAR-10-like data convert. *)
Lemma cifar_like_labels (ds : Dataset) :
  cifar_like ds ->
  exists Y_train Y_test,
    np_utils.to_categorical (snd (fst ds)) nb_classes = Some Y_train
    /\ np_utils.to_categorical (snd (snd ds)) nb_classes = Some Y_test
    /\ shape_from_1 (fst (fst ds)) = (32, 32, 3)%nat.
Proof.
  destruct ds as [[X y] [X' y']]. intros (Hs & Hy & Hy').
  destruct (to_categorical_total y Hy) as [Y HY].
  destruct (to_categorical_total y' Hy') as [Y' HY'].
  exists Y, Y'. simpl. auto.
Qed.

(** On CIFAR-10-like data and with a library that never raises, the
    notebook runs to its end and leaves behind what [expected_final]
    shows. *)
Lemma notebook_run (bs ne : Z) (aug : bool) (ds : Dataset)
    (Y_train Y_test : list (list Z)) :
  np_utils.to_categorical (snd (fst ds)) nb_classes = Some Y_train ->
  np_utils.to_categorical (snd (snd ds)) nb_classes = Some Y_test ->
  shape_from_1 (fst (fst ds)) = (32, 32, 3)%nat ->
  let r := notebook_with no_failure bs ne aug ds initial in
  let seen := expected_final bs ne aug (fst (fst ds)) Y_train (fst (snd ds)) Y_test in
  fst r = Ok tt
  /\ heap (snd r) = snap_heap seen
  /\ uids (snd r) = snap_uids seen
  /\ trace (snd r) = snap_trace seen
  /\ stdout (snd r) = snap_stdout seen.
Proof.
  destruct ds as [[X y] [X' y']]. cbn [fst snd]. intros HY HY' Hs.
  destruct X as [[[[n r] c] ch] px]. unfold shape_from_1 in Hs. cbn [shape] in Hs.
  injection Hs as -> -> ->.
  destruct (notebook_run_explicit bs ne aug n px y X' y' Y_train Y_test HY HY')
    as [Hok Hseen].
  cbn zeta in *. rewrite <- Hseen. split; [exact Hok|]. repeat split.
Qed.

(** Checks that a concrete data set is CIFAR-10-like. *)
Ltac check_cifar_like :=
  unfold cifar_like, sample_dataset;
  split; [reflexivity|];
  split; repeat constructor; unfold nb_classes; lia.

Lemma sample_dataset_cifar_like : cifar_like sample_dataset.
Proof. check_cifar_like. Qed.

(** Replaces the runs of the notebook on CIFAR-10-like data by their
    results. *)
Ltac run_notebook H :=
  let Y := fresh "Y_train" in
  let Y' := fresh "Y_test" in
  let HY := fresh "HY_train" in
  let HY' := fresh "HY_test" in
  let Hs := fresh "Hshape" in
  destruct (cifar_like_labels _ H) as (Y & Y' & HY & HY' & Hs);
  unfold outcome, final, notebook;
  rewrite ?(fun bs ne aug => proj1 (notebook_run bs ne aug _ _ _ HY HY' Hs)),
    ?(fun bs ne aug => proj1 (proj2 (notebook_run bs ne aug _ _ _ HY HY' Hs))),
    ?(fun bs ne aug =>
        proj1 (proj2 (proj2 (proj2 (notebook_run bs ne aug _ _ _ HY HY' Hs))))),
    ?(fun bs ne aug =>
        proj2 (proj2 (proj2 (proj2 (notebook_run bs ne aug _ _ _ HY HY' Hs)))));
  unfold expected_final; rewrite ?Hs;
  cbn [snap_heap snap_trace snap_stdout snap_uids].

(** ** The two declarations of the network *)

Lemma functional_layers (s : nat * nat * nat) :
  model_layers (functional_object s) = Some (functional_input s :: functional_chain).
Proof. reflexivity. Qed.

(** C1: on CIFAR-10-like data the second cell leaves a [Sequential] object
    whose stack has eighteen layers, and these are, in order, the stated
    architecture: the block convolution, activation, convolution,
    activation, pooling, dropout with 32 and then with 64 filters, followed
    by flatten, dense (512), activation, dropout, dense (10), softmax.  The
    functional model of the third cell unfolds to the same sequence. *)
Theorem declared_architecture (ds : Dataset) :
  cifar_like ds ->
  outcome no_failure ds = Ok tt
  /\ (exists seq ls,
        heap (final no_failure ds) !! 0%nat = Some seq
        /\ topology seq = Stack ls
        /\ length ls = 18%nat
        /\ architecture ls = stated_architecture)
  /\ (exists fn ls,
        heap (final no_failure ds) !! 1%nat = Some fn
        /\ model_layers fn = Some ls
        /\ architecture ls = stated_architecture).
Proof.
  intros H. run_notebook H.
  split; [reflexivity|]. split.
  - exists (sequential_object (32, 32, 3)%nat), (sequential_stack (32, 32, 3)%nat).
    repeat split; reflexivity.
  - exists (functional_object (32, 32, 3)%nat),
      (functional_input (32, 32, 3)%nat :: functional_chain).
    repeat split; reflexivity.
Qed.

Lemma declared_architecture_witness :
  outcome no_failure sample_dataset = Ok tt
  /\ (exists seq ls,
        heap (final no_failure sample_dataset) !! 0%nat = Some seq
        /\ topology seq = Stack ls
        /\ length ls = 18%nat
        /\ architecture ls = stated_architecture)
  /\ (exists fn ls,
        heap (final no_failure sample_dataset) !! 1%nat = Some fn
        /\ model_layers fn = Some ls
        /\ architecture ls = stated_architecture).
Proof.
  apply (declared_architecture sample_dataset).
  check_cifar_like.
Defined.

Section Equivalence.

Variables T W : Type.
Variable conv2d : nat -> nat -> nat -> string -> W -> T -> T.
Variable dense : nat -> W -> T -> T.
Variable activation_fn : string -> T -> T.
Variable max_pool : nat * nat -> T -> T.
Variable dropout : Q -> T -> T.
Variable flatten : T -> T.

(** The two objects compute the same function of weights and input,
    whatever the kernels are. *)
Lemma predict_sequential_functional (s : nat * nat * nat) (ws : list W) (x : T) :
  predict T W conv2d dense activation_fn max_pool dropout flatten
    (sequential_object s) ws x
  = predict T W conv2d dense activation_fn max_pool dropout flatten
      (functional_object s) ws x.
Proof.
  unfold predict. rewrite functional_layers.
  do 7 (destruct ws as [|? ws]; [reflexivity|]).
  reflexivity.
Qed.

(** Both take exactly six weight entries: four convolutions and two
    dense layers. *)
Lemma predict_defined (s : nat * nat * nat) (ws : list W) (x : T) :
  is_Some (predict T W conv2d dense activation_fn max_pool dropout flatten
             (sequential_object s) ws x)
  <-> length ws = 6%nat.
Proof.
  unfold predict.
  destruct ws as [|w1 [|w2 [|w3 [|w4 [|w5 [|w6 [|w7 ws]]]]]]]; simpl;
    (split; [intros [y Hy]; try discriminate Hy; reflexivity
            | intros Hlen; try discriminate Hlen; eexists; reflexivity]).
Qed.

End Equivalence.

(** C2: the stack of the [Sequential] instance and the graph of the
    functional [Model] declare the same network.  For every choice of
    tensors, weights and numerical kernels, every weight list and every
    input, both compute the same output (and they are defined for the same
    weight lists, those with six entries); unfolding the activations built
    into the functional model's layers gives the same operations with the
    same parameters in the same order; both expect the same input shape and
    have the same 1250858 weights. *)
Theorem api_equivalence (ds : Dataset) :
  cifar_like ds ->
  exists seq fn,
    heap (final no_failure ds) !! 0%nat = Some seq
    /\ heap (final no_failure ds) !! 1%nat = Some fn
    /\ (exists ls, topology seq = Stack ls)
    /\ (exists input output, topology fn = Graph input output)
    /\ (forall (T W : Type) conv2d dense activation_fn max_pool dropout flatten
               (ws : list W) (x : T),
          predict T W conv2d dense activation_fn max_pool dropout flatten seq ws x
          = predict T W conv2d dense activation_fn max_pool dropout flatten fn ws x
          /\ (is_Some (predict T W conv2d dense activation_fn max_pool dropout
                         flatten seq ws x)
              <-> length ws = 6%nat))
    /\ (exists ls ls',
          model_layers seq = Some ls /\ model_layers fn = Some ls'
          /\ operations ls = operations ls'
          /\ input_shape_of ls = input_shape_of ls')
    /\ total_params <$> summary seq = Some 1250858%N
    /\ total_params <$> summary fn = Some 1250858%N.
Proof.
  intros H. run_notebook H.
  exists (sequential_object (32, 32, 3)%nat), (functional_object (32, 32, 3)%nat).
  split; [reflexivity|]. split; [reflexivity|].
  split; [eexists; reflexivity|]. split; [do 2 eexists; reflexivity|].
  split.
  { intros. split.
    - apply predict_sequential_functional.
    - apply predict_defined. }
  split.
  { exists (sequential_stack (32, 32, 3)%nat),
      (functional_input (32, 32, 3)%nat :: functional_chain).
    repeat split; reflexivity. }
  split; vm_compute; reflexivity.
Qed.

Lemma api_equivalence_witness :
  exists seq fn,
    heap (final no_failure sample_dataset) !! 0%nat = Some seq
    /\ heap (final no_failure sample_dataset) !! 1%nat = Some fn
    /\ (exists ls, topology seq = Stack ls)
    /\ (exists input output, topology fn = Graph input output)
    /\ (forall (T W : Type) conv2d dense activation_fn max_pool dropout flatten
               (ws : list W) (x : T),
          predict T W conv2d dense activation_fn max_pool dropout flatten seq ws x
          = predict T W conv2d dense activation_fn max_pool dropout flatten fn ws x
          /\ (is_Some (predict T W conv2d dense activation_fn max_pool dropout
                         flatten seq ws x)
              <-> length ws = 6%nat))
    /\ (exists ls ls',
          model_layers seq = Some ls /\ model_layers fn = Some ls'
          /\ operations ls = operations ls'
          /\ input_shape_of ls = input_shape_of ls')
    /\ total_params <$> summary seq = Some 1250858%N
    /\ total_params <$> summary fn = Some 1250858%N.
Proof.
  apply (api_equivalence sample_dataset).
  check_cifar_like.
Defined.

(** A run of both declarations on toy kernels: tensors are lists of
    symbols, and every kernel records that it was applied. *)
Example predict_example :
  let conv2d := fun (f kr kc : nat) (b : string) (w : string) (x : list string) =>
                  x ++ ["conv " +:+ w +:+ " " +:+ b] in
  let dense := fun (n : nat) (w : string) (x : list string) => x ++ ["dense " +:+ w] in
  let act := fun (name : string) (x : list string) => x ++ [name] in
  let pool := fun (p : nat * nat) (x : list string) => x ++ ["pool"] in
  let drop := fun (p : Q) (x : list string) => x ++ ["dropout"] in
  let flat := fun (x : list string) => x ++ ["flatten"] in
  let ws := ["w1"; "w2"; "w3"; "w4"; "w5"; "w6"] in
  predict _ _ conv2d dense act pool drop flat
    (functional_object (32, 32, 3)%nat) ws ["x"]
  = Some ["x"; "conv w1 same"; "relu"; "conv w2 valid"; "relu"; "pool"; "dropout";
          "conv w3 same"; "relu"; "conv w4 valid"; "relu"; "pool"; "dropout";
          "flatten"; "dense w5"; "relu"; "dropout"; "dense w6"; "softmax"].
Proof. reflexivity. Qed.

(** ** Compilation *)

(** C5: in a run on CIFAR-10-like data the notebook compiles once, with
    the loss ['categorical_crossentropy'], an SGD optimizer of learning rate
    0.01, decay 1e-6, momentum 0.9 and Nesterov acceleration, and the
    metrics [['accuracy']]; the optimizer is created by one call with these
    four settings, and the compiled model carries exactly these arguments. *)
Theorem compile_parameters (ds : Dataset) :
  cifar_like ds ->
  let sgd := {| lr := 0.01; decay := 1e-6; momentum := 0.9; nesterov := true |} in
  let args :=
    {| loss := "categorical_crossentropy"; optimizer := sgd; metrics := ["accuracy"] |} in
  compilations (trace (final no_failure ds)) = [(1%nat, args)]
  /\ optimizers (trace (final no_failure ds)) = [sgd]
  /\ compiled <$> heap (final no_failure ds) !! 1%nat = Some (Some args).
Proof.
  intros H. run_notebook H.
  repeat split; reflexivity.
Qed.

Lemma compile_parameters_witness :
  let sgd := {| lr := 0.01; decay := 1e-6; momentum := 0.9; nesterov := true |} in
  let args :=
    {| loss := "categorical_crossentropy"; optimizer := sgd; metrics := ["accuracy"] |} in
  compilations (trace (final no_failure sample_dataset)) = [(1%nat, args)]
  /\ optimizers (trace (final no_failure sample_dataset)) = [sgd]
  /\ compiled <$> heap (final no_failure sample_dataset) !! 1%nat = Some (Some args).
Proof.
  apply (compile_parameters sample_dataset).
  check_cifar_like.
Defined.

(** ** Training *)

(** C6: the training parameters are batch size 128, 200 epochs and the
    augmentation toggle set.  With the toggle set, the training cell creates
    the generator, fits it, lets it flow over the training data in batches
    of [batch_size], and calls [fit_generator] on that flow with as many
    samples per epoch as there are training images, [nb_epoch] epochs and
    the test set for validation; [fit] is not called.  With the toggle
    cleared it makes the single call [fit] with the same batch size, epoch
    count and validation set (and [shuffle=True]), and no generator is
    created. *)
Theorem training_invocation (ds : Dataset) :
  cifar_like ds ->
  batch_size = 128 /\ nb_epoch = 200 /\ data_augmentation = true
  /\ exists Y_train Y_test,
       np_utils.to_categorical (snd (fst ds)) nb_classes = Some Y_train
       /\ np_utils.to_categorical (snd (snd ds)) nb_classes = Some Y_test
       /\ let X_train := normalize (fst (fst ds)) in
          let X_test := normalize (fst (snd ds)) in
          let training bs ne aug :=
            training_part (trace (snd (notebook_with no_failure bs ne aug ds initial))) in
          let generator bs := mk_Flow datagen_of_notebook X_train Y_train bs in
          training_part (trace (final no_failure ds))
          = [ new_ImageDataGenerator datagen_of_notebook;
              ImageDataGenerator_fit datagen_of_notebook X_train;
              ImageDataGenerator_flow (generator 128);
              Model_fit_generator 1 (generator 128) (shape_0 (fst (fst ds))) 200
                (X_test, Y_test) ]
          /\ forall bs ne,
               training bs ne true
               = [ new_ImageDataGenerator datagen_of_notebook;
                   ImageDataGenerator_fit datagen_of_notebook X_train;
                   ImageDataGenerator_flow (generator bs);
                   Model_fit_generator 1 (generator bs) (shape_0 (fst (fst ds))) ne
                     (X_test, Y_test) ]
               /\ training bs ne false
                  = [ Model_fit 1 X_train Y_train bs ne (X_test, Y_test) true ].
Proof.
  intros H. do 3 (split; [reflexivity|]).
  run_notebook H.
  exists Y_train, Y_test. do 2 (split; [assumption|]).
  split; [reflexivity|].
  intros bs ne.
  rewrite !(fun aug =>
              proj1 (proj2 (proj2 (proj2
                (notebook_run bs ne aug _ _ _ HY_train HY_test Hshape))))).
  unfold expected_final. rewrite Hshape. split; reflexivity.
Qed.

Lemma training_invocation_witness :
  batch_size = 128 /\ nb_epoch = 200 /\ data_augmentation = true
  /\ exists Y_train Y_test,
       np_utils.to_categorical (snd (fst sample_dataset)) nb_classes = Some Y_train
       /\ np_utils.to_categorical (snd (snd sample_dataset)) nb_classes = Some Y_test
       /\ let X_train := normalize (fst (fst sample_dataset)) in
          let X_test := normalize (fst (snd sample_dataset)) in
          let training bs ne aug :=
            training_part
              (trace (snd (notebook_with no_failure bs ne aug sample_dataset initial))) in
          let generator bs := mk_Flow datagen_of_notebook X_train Y_train bs in
          training_part (trace (final no_failure sample_dataset))
          = [ new_ImageDataGenerator datagen_of_notebook;
              ImageDataGenerator_fit datagen_of_notebook X_train;
              ImageDataGenerator_flow (generator 128);
              Model_fit_generator 1 (generator 128) (shape_0 (fst (fst sample_dataset)))
                200 (X_test, Y_test) ]
          /\ forall bs ne,
               training bs ne true
               = [ new_ImageDataGenerator datagen_of_notebook;
                   ImageDataGenerator_fit datagen_of_notebook X_train;
                   ImageDataGenerator_flow (generator bs);
                   Model_fit_generator 1 (generator bs)
                     (shape_0 (fst (fst sample_dataset))) ne (X_test, Y_test) ]
               /\ training bs ne false
                  = [ Model_fit 1 X_train Y_train bs ne (X_test, Y_test) true ].
Proof.
  apply (training_invocation sample_dataset).
  check_cifar_like.
Defined.

(** ** Which model is trained *)

(** C9: the run creates two model objects.  Object 0 is the [Sequential]
    instance: the calls made on it are its creation and the eighteen [add]s,
    none of them from the creation of the functional model on, and it is
    never compiled.  Object 1 is the functional [Model]: from its creation
    on, every call made on a model is made on it, and these calls are its
    creation, [summary], [compile] and [fit_generator]. *)
Theorem model_rebinding (ds : Dataset) :
  cifar_like ds ->
  let w := final no_failure ds in
  exists seq fn,
    heap w !! 0%nat = Some seq /\ heap w !! 1%nat = Some fn
    /\ length (heap w) = 2%nat
    /\ (exists ls, topology seq = Stack ls)
    /\ (exists input output, topology fn = Graph input output)
    /\ compiled seq = None
    /\ compiled fn = Some compile_args_of_notebook
    /\ calls_on 0 (trace w)
       = new_Sequential 0
           :: map (Sequential_add 0) (sequential_stack (shape_from_1 (fst (fst ds))))
    /\ calls_on 0 (since_new_Model (trace w)) = []
    /\ exists generator samples validation,
         model_calls (since_new_Model (trace w))
         = [ new_Model 1; Model_summary 1;
             Model_compile 1 compile_args_of_notebook;
             Model_fit_generator 1 generator samples nb_epoch validation ]
         /\ calls_on 1 (trace w) = model_calls (since_new_Model (trace w)).
Proof.
  intros H w. subst w. run_notebook H.
  exists (sequential_object (32, 32, 3)%nat), (functional_object (32, 32, 3)%nat).
  do 3 (split; [reflexivity|]).
  split; [eexists; reflexivity|]. split; [do 2 eexists; reflexivity|].
  do 4 (split; [reflexivity|]).
  do 3 eexists. split; reflexivity.
Qed.

Lemma model_rebinding_witness :
  let w := final no_failure sample_dataset in
  exists seq fn,
    heap w !! 0%nat = Some seq /\ heap w !! 1%nat = Some fn
    /\ length (heap w) = 2%nat
    /\ (exists ls, topology seq = Stack ls)
    /\ (exists input output, topology fn = Graph input output)
    /\ compiled seq = None
    /\ compiled fn = Some compile_args_of_notebook
    /\ calls_on 0 (trace w)
       = new_Sequential 0
           :: map (Sequential_add 0)
                (sequential_stack (shape_from_1 (fst (fst sample_dataset))))
    /\ calls_on 0 (since_new_Model (trace w)) = []
    /\ exists generator samples validation,
         model_calls (since_new_Model (trace w))
         = [ new_Model 1; Model_summary 1;
             Model_compile 1 compile_args_of_notebook;
             Model_fit_generator 1 generator samples nb_epoch validation ]
         /\ calls_on 1 (trace w) = model_calls (since_new_Model (trace w)).
Proof.
  apply (model_rebinding sample_dataset).
  check_cifar_like.
Defined.

(** The table printed by the fourth cell is the one the notebook records
    for the functional model, layer names included; the first lines are the
    recorded output of the first cell, the last two that of the training
    cell, which begins [Epoch 1/200]. *)
Lemma recorded_output (px px' : list Z) (y y' : list Z) :
  Forall valid_label y -> Forall valid_label y' ->
  let ds := ((mk_ndarray4 (50000, 32, 32, 3)%nat px, y),
             (mk_ndarray4 (10000, 32, 32, 3)%nat px', y')) in
  stdout (final no_failure ds)
  = [ Text "X_train shape: (50000, 32, 32, 3)";
      Text ("Train samples: 50000" +:+ newline +:+ "Test samples: 10000.");
      Table recorded_summary 1250858;
      Text "None";
      Text "Using real-time data augmentation.";
      Progress 200 ].
Proof.
  intros Hy Hy' ds.
  assert (H : cifar_like ds) by (split; [reflexivity|split; assumption]).
  run_notebook H. vm_compute. reflexivity.
Qed.

(** ** Augmentation *)

(** C10: the run creates one generator, with all centering, all
    standard-deviation normalisation, ZCA whitening and vertical flips off,
    rotation range 0, both shift ranges 0.1 and horizontal flips on.  It
    enables exactly three transformations: horizontal shifts, vertical
    shifts and horizontal flips.  Whatever the image operations are, an
    augmented image is the original shifted horizontally by at most a tenth
    of the width, shifted vertically by at most a tenth of the height and
    flipped horizontally or not; nothing else is applied to it. *)
Theorem augmentation_configuration (ds : Dataset) :
  cifar_like ds ->
  exists g,
    generators (trace (final no_failure ds)) = [g]
    /\ (featurewise_center g = false /\ samplewise_center g = false
        /\ featurewise_std_normalization g = false
        /\ samplewise_std_normalization g = false
        /\ zca_whitening g = false /\ rotation_range g = 0%Q
        /\ width_shift_range g = 0.1%Q /\ height_shift_range g = 0.1%Q
        /\ horizontal_flip g = true /\ vertical_flip g = false)
    /\ enabled g = [horizontal_shift 0.1; vertical_shift 0.1; horizontal_flipping]
    /\ forall (Image : Type) rotate shift_horizontally shift_vertically
              flip_horizontally flip_vertically
              center_sample scale_sample center_feature scale_feature whiten
              (d : Draw) (x : Image),
         drawn_by g d ->
         augment Image rotate shift_horizontally shift_vertically
           flip_horizontally flip_vertically
           center_sample scale_sample center_feature scale_feature whiten g d x
         = (let shifted := shift_vertically (shift_h d)
                             (shift_horizontally (shift_w d) x) in
            if coin_h d then flip_horizontally shifted else shifted)
         /\ (Qabs (shift_w d) <= 0.1)%Q /\ (Qabs (shift_h d) <= 0.1)%Q
         /\ (angle d == 0)%Q.
Proof.
  intros H. run_notebook H.
  exists datagen_of_notebook. split; [reflexivity|].
  split; [repeat split; reflexivity|]. split; [reflexivity|].
  intros Image ? ? ? ? ? ? ? ? ? ? d x (Ha & Hw & Hh).
  split; [reflexivity|]. split; [exact Hw|]. split; [exact Hh|].
  simpl in Ha. apply Qabs_Qle_condition in Ha. destruct Ha as [Hlo Hhi].
  apply Qle_antisym; [exact Hhi|exact Hlo].
Qed.

Lemma augmentation_configuration_witness :
  exists g,
    generators (trace (final no_failure sample_dataset)) = [g]
    /\ (featurewise_center g = false /\ samplewise_center g = false
        /\ featurewise_std_normalization g = false
        /\ samplewise_std_normalization g = false
        /\ zca_whitening g = false /\ rotation_range g = 0%Q
        /\ width_shift_range g = 0.1%Q /\ height_shift_range g = 0.1%Q
        /\ horizontal_flip g = true /\ vertical_flip g = false)
    /\ enabled g = [horizontal_shift 0.1; vertical_shift 0.1; horizontal_flipping]
    /\ forall (Image : Type) rotate shift_horizontally shift_vertically
              flip_horizontally flip_vertically
              center_sample scale_sample center_feature scale_feature whiten
              (d : Draw) (x : Image),
         drawn_by g d ->
         augment Image rotate shift_horizontally shift_vertically
           flip_horizontally flip_vertically
           center_sample scale_sample center_feature scale_feature whiten g d x
         = (let shifted := shift_vertically (shift_h d)
                             (shift_horizontally (shift_w d) x) in
            if coin_h d then flip_horizontally shifted else shifted)
         /\ (Qabs (shift_w d) <= 0.1)%Q /\ (Qabs (shift_h d) <= 0.1)%Q
         /\ (angle d == 0)%Q.
Proof.
  apply (augmentation_configuration sample_dataset).
  check_cifar_like.
Defined.

(** An augmentation on toy images, rows of numbers that a horizontal shift
    rotates by one place and a flip reverses: the draw shifts and flips, and
    nothing else touches the image. *)
Example augment_example :
  let shift := fun (a : Q) (x : list Z) => if Qeq_bool a 0 then x else rotate 1 x in
  let same := fun (x : list Z) => [] : list Z in
  augment (list Z) (fun _ _ => []) shift (fun _ x => x) (@rev Z) same same same same same same
    datagen_of_notebook (mk_Draw 0 0.1 0 true false) [1; 2; 3; 4]
  = [1; 4; 3; 2].
Proof. reflexivity. Qed.

(** ** Exceptions *)

Section Propagation.

(** A run in which the first library call to raise is call [n], with
    exception [e]. *)
Variable fails : nat -> option PyExc.
Variable n : nat.
Variable e : PyExc.
Hypothesis fails_n : fails n = Some e.
Hypothesis fails_before : forall i, (i < n)%nat -> fails i = None.

Lemma tracks_ret {A} (a : A) : tracks fails n e (fun _ => mret a).
Proof.
  intros w Hw. simpl. unfold attempted. simpl.
  split; [reflexivity|]. split; [reflexivity|].
  split; [unfold in_step in Hw; lia|].
  intros Hle. rewrite decide_True by lia. reflexivity.
Qed.

Lemma tracks_print (s : string) : tracks fails n e (fun _ => print s).
Proof.
  intros w Hw. simpl. unfold attempted. simpl.
  split; [reflexivity|]. split; [reflexivity|].
  split; [unfold in_step in Hw; lia|].
  intros Hle. rewrite decide_True by lia. reflexivity.
Qed.

(** A call that raises as call [n] leaves the world it was made in, with
    the call recorded. *)
Lemma raising_stops_at {A} (w : World) (r : Outcome A * World) (a0 : Attempt)
    (rest : list Event) :
  length (attempts w) = n ->
  length (trace w) = n ->
  made_in a0 = snapshot w ->
  attempts (snd r) = attempts w ++ [a0] ->
  trace (snd r) = trace w ++ rest ->
  stops_at n e r (Raise e, raising e w).
Proof.
  intros Ha Ht Hmade Hatt Htr. exists (raising e w).
  split; [reflexivity|]. rewrite Hatt, Htr. cbn [raising trace attempts].
  split; [rewrite <- Ht; now rewrite take_app_length|].
  split; [rewrite <- Ha; now rewrite take_app_length|].
  rewrite <- Ha, list_lookup_middle by reflexivity. simpl. now rewrite Hmade.
Qed.

Lemma tracks_library_call {A} (body : World -> PyExc + A * World) (ev : A -> Event) :
  tracks fails n e (fun f => library_call f body ev).
Proof.
  intros w Hw. unfold in_step in Hw. unfold library_call, no_failure, attempted.
  destruct (body w) as [e0|[a w']]; cbn [fst snd raising returned trace attempts].
  - split; [reflexivity|]. split; [now apply prefix_app_r|].
    split; [rewrite length_app; simpl; lia|].
    intros Hle. case_decide.
    + rewrite fails_before by lia. reflexivity.
    + assert (length (attempts w) = n) as Hn by lia.
      rewrite Hn, fails_n.
      apply (raising_stops_at w _ (mk_Attempt (snapshot w) (Some e0)) []);
        try reflexivity; try lia.
      simpl. now rewrite app_nil_r.
  - split; [now apply prefix_app_r|]. split; [now apply prefix_app_r|].
    split; [rewrite !length_app; simpl; lia|].
    intros Hle. rewrite length_app. simpl. case_decide.
    + rewrite fails_before by lia. reflexivity.
    + assert (length (attempts w) = n) as Hn by lia.
      rewrite Hn, fails_n.
      apply (raising_stops_at w _ (mk_Attempt (snapshot w) None) [ev a]);
        try reflexivity; lia.
Qed.

Lemma tracks_bind {A B} (m : (nat -> option PyExc) -> Py A)
    (k : A -> (nat -> option PyExc) -> Py B) :
  tracks fails n e m ->
  (forall a, tracks fails n e (k a)) ->
  tracks fails n e (fun f => m f ≫= (fun a => k a f)).
Proof.
  intros Hm Hk w Hw. unfold mbind, Py_bind, bind.
  destruct (Hm w Hw) as (Hpre & Hatt & Hlen & Hrun). cbn zeta in *.
  unfold attempted in Hlen, Hrun.
  destruct (m no_failure w) as [[a|e0] w1] eqn:E; cbn [fst snd] in *.
  - assert (Hw1 : in_step w1) by (unfold in_step; lia).
    destruct (Hk a w1 Hw1) as (Hpre' & Hatt' & Hlen' & Hrun'). cbn zeta in *.
    split; [now transitivity (trace w1)|].
    split; [now transitivity (attempts w1)|].
    split; [exact Hlen'|].
    intros Hle. specialize (Hrun Hle).
    destruct (decide (length (trace w1) + 0 <= n)%nat) as [Hreach|Hreach].
    + rewrite Hrun. apply Hrun'. lia.
    + destruct Hrun as (w2 & Hw2 & Htr & Hat & Hmade). rewrite Hw2.
      assert (length (trace w1) <= length (trace (k a no_failure w1).2))%nat
        by now apply prefix_length.
      rewrite decide_False by (unfold attempted; lia).
      exists w2. split; [reflexivity|]. cbn [snd] in *.
      destruct Hpre' as [rest ->]. destruct Hatt' as [rest' ->].
      rewrite !take_app_le by lia. rewrite lookup_app_l by lia. auto.
  - split; [exact Hpre|]. split; [exact Hatt|]. split; [exact Hlen|].
    intros Hle. specialize (Hrun Hle). unfold attempted. cbn [fst snd].
    destruct (decide (length (trace w1) + 1 <= n)%nat) as [Hreach|Hreach].
    + now rewrite Hrun.
    + destruct Hrun as (w2 & Hw2 & Hrest). rewrite Hw2. exists w2. now split.
Qed.

Lemma tracks_if {A} (b : bool) (m1 m2 : (nat -> option PyExc) -> Py A) :
  tracks fails n e m1 -> tracks fails n e m2 ->
  tracks fails n e (fun f => if b then m1 f else m2 f).
Proof. now destruct b. Qed.

Ltac track_step :=
  lazymatch goal with
  | |- tracks _ _ _ (fun f => mbind _ _) => apply (tracks_bind (fun f => _) (fun a f => _))
  | |- tracks _ _ _ (fun f => library_call _ _ _) => apply tracks_library_call
  | |- tracks _ _ _ (fun f => mret _) => apply tracks_ret
  | |- tracks _ _ _ (fun f => print _) => apply tracks_print
  | |- tracks _ _ _ (fun f => if _ then _ else _) => apply tracks_if
  | |- tracks _ _ _ (fun f => let '(_, _) := ?a in _) => destruct a
  | |- forall _, _ => intro
  end.

Lemma tracks_notebook (bs ne : Z) (aug : bool) (ds : Dataset) :
  tracks fails n e (fun f => notebook_with f bs ne aug ds).
Proof.
  unfold notebook_with, cell_data, cell_sequential, cell_functional, cell_summary,
    cell_compile, cell_train.
  unfold Input, apply.
  unfold load_data, astype, truediv, to_categorical, Sequential, add, new, call,
    Model, model_summary, new_sgd, compile, fit, new_datagen, datagen_fit, flow,
    fit_generator.
  repeat track_step.
Qed.

End Propagation.

Lemma full_run_length (ds : Dataset) :
  cifar_like ds ->
  outcome no_failure ds = Ok tt
  /\ length (trace (final no_failure ds)) = calls_of_a_run.
Proof.
  intros H. run_notebook H. split; reflexivity.
Qed.

(** C8: let call [n] be the first library call that raises in a run, and
    [e] its exception.  Whatever the data, the run is the run without
    failures as long as that one attempts no more than [n] calls, and
    otherwise it stops at call [n].  On CIFAR-10-like data a complete run
    makes 79 calls, so for every [n] below 79 the notebook ends in [e]
    itself; its trace is the first [n] calls of the complete run; the calls
    it made are those [n] calls, made in the same worlds as in the complete
    run, and then the one that raised [e], which is the last: nothing is
    tried again and no other call follows; and the world left at the top
    level, with its model objects and its output, is still the world that
    call was made in, which is the world in which the complete run makes
    its call [n]: nothing is tidied up, printed or undone after the
    failure. *)
Theorem library_failure_propagates (fails : nat -> option PyExc) (ds : Dataset)
    (n : nat) (e : PyExc) :
  fails n = Some e ->
  (forall i, (i < n)%nat -> fails i = None) ->
  (let r := notebook no_failure ds initial in
   if decide (attempted r <= n)%nat then notebook fails ds initial = r
   else stops_at n e r (notebook fails ds initial))
  /\ (cifar_like ds -> (n < calls_of_a_run)%nat ->
      outcome fails ds = Raise e
      /\ trace (final fails ds) = take n (trace (final no_failure ds))
      /\ length (trace (final fails ds)) = n
      /\ attempts (final fails ds)
         = take n (attempts (final no_failure ds))
             ++ [mk_Attempt (snapshot (final fails ds)) (Some e)]
      /\ made_in <$> attempts (final no_failure ds) !! n
         = Some (snapshot (final fails ds))).
Proof.
  intros Hn Hbefore.
  destruct (tracks_notebook fails n e Hn Hbefore batch_size nb_epoch
              data_augmentation ds initial eq_refl) as (_ & _ & _ & Hrun).
  specialize (Hrun (Nat.le_0_l n)). cbn zeta in Hrun.
  split; [exact Hrun|].
  intros H Hlt. destruct (full_run_length ds H) as [Hok Hlen].
  unfold outcome, final in *. fold (notebook no_failure ds) in Hrun.
  fold (notebook fails ds) in Hrun.
  rewrite decide_False in Hrun by (unfold attempted; lia).
  destruct Hrun as (w & -> & Htr & Hatt & Hmade). cbn [fst snd].
  split; [reflexivity|]. split; [exact Htr|].
  split; [rewrite Htr, length_take; lia|].
  split; assumption.
Qed.

Lemma library_failure_propagates_witness :
  let e := mk_PyExc "MemoryError" "" in
  outcome (fail_at 40 e) sample_dataset = Raise e
  /\ trace (final (fail_at 40 e) sample_dataset)
     = take 40 (trace (final no_failure sample_dataset))
  /\ length (trace (final (fail_at 40 e) sample_dataset)) = 40%nat
  /\ attempts (final (fail_at 40 e) sample_dataset)
     = take 40 (attempts (final no_failure sample_dataset))
         ++ [mk_Attempt (snapshot (final (fail_at 40 e) sample_dataset)) (Some e)]
  /\ made_in <$> attempts (final no_failure sample_dataset) !! 40%nat
     = Some (snapshot (final (fail_at 40 e) sample_dataset)).
Proof.
  refine (proj2 (library_failure_propagates (fail_at 40 (mk_PyExc "MemoryError" ""))
                   sample_dataset 40 (mk_PyExc "MemoryError" "") _ _) _ _).
  - reflexivity.
  - intros i Hi. unfold fail_at. apply decide_False. lia.
  - check_cifar_like.
  - unfold calls_of_a_run. lia.
Defined.

(** The failure of the very first call, the download of the data, ends the
    run before anything else happens. *)
Example load_data_fails (e : PyExc) (ds : Dataset) :
  notebook (fail_at 0 e) ds initial = (Raise e, raising e initial).
Proof. reflexivity. Qed.

(** When the library runs out of memory in call 50, in the middle of the
    third cell, the [Sequential] model is there with its eighteen layers,
    the functional model is not, and the two lines of the first cell are
    all that was printed. *)
Example failure_in_third_cell :
  let w := final (fail_at 50 (mk_PyExc "MemoryError" "")) sample_dataset in
  heap w = [sequential_object (32, 32, 3)%nat]
  /\ length (stdout w) = 2%nat
  /\ length (attempts w) = 51%nat.
Proof. vm_compute. repeat split. Qed.

(** Programs that do something about a failure do not pass for the
    notebook.  A [try] around the first call turns its failure into a
    normal end. *)
Example swallowing_catches (e : PyExc) (ds : Dataset) :
  swallowing (fail_at 0 e) ds initial = (Ok tt, raising e initial)
  /\ ~ stops_at 0 e (swallowing no_failure ds initial)
         (swallowing (fail_at 0 e) ds initial).
Proof.
  split; [reflexivity|]. intros (w & Hw & _). discriminate.
Qed.

(** Running the notebook again after a failure ends well if the library
    raises only once, with 41 and 79 calls made; and if the library keeps
    raising, the run ends in the same exception with the same trace, but
    with a call too many. *)
Example retrying_is_seen :
  let e := mk_PyExc "MemoryError" "" in
  let r := notebook no_failure sample_dataset initial in
  let once := retrying (fail_at 40 e) sample_dataset initial in
  let again := retrying (fails_from 40 e) sample_dataset initial in
  fst once = Ok tt /\ length (attempts (snd once)) = 120%nat
  /\ ~ stops_at 40 e r once
  /\ fst again = Raise e /\ length (trace (snd again)) = 40%nat
  /\ length (attempts (snd again)) = 42%nat
  /\ ~ stops_at 40 e r again.
Proof.
  cbn zeta.
  split; [vm_compute; reflexivity|]. split; [vm_compute; reflexivity|].
  split.
  { intros (w & Hw & _). apply (f_equal fst) in Hw. vm_compute in Hw. discriminate. }
  split; [vm_compute; reflexivity|]. split; [vm_compute; reflexivity|].
  split; [vm_compute; reflexivity|].
  intros (w & Hw & _ & Hatt & _).
  apply (f_equal snd) in Hw. cbn [snd] in Hw. subst w.
  apply (f_equal length) in Hatt. vm_compute in Hatt. discriminate.
Qed.

(** Tidying up before raising again passes the exception on, with the
    same calls made, but the world at the top level is no longer the one
    the failing call was made in: the model object that was there is gone,
    and a line more is printed. *)
Example cleaning_up_is_seen :
  let e := mk_PyExc "MemoryError" "" in
  let r := cleaning_up (fail_at 40 e) sample_dataset initial in
  fst r = Raise e
  /\ length (attempts (snd r)) = 41%nat
  /\ heap (snd r) = []
  /\ length <$> (snap_heap <$> (made_in <$> last (attempts (snd r)))) = Some 1%nat
  /\ length (stdout (snd r)) = 3%nat
  /\ ~ stops_at 40 e (notebook no_failure sample_dataset initial) r.
Proof.
  cbn zeta. do 5 (split; [vm_compute; reflexivity|]).
  intros (w & Hw & _ & _ & Hmade).
  apply (f_equal snd) in Hw. cbn [snd] in Hw. subst w.
  apply (f_equal (fmap (fun s => length (snap_heap s)))) in Hmade.
  vm_compute in Hmade. discriminate.
Qed.

(** * Further properties of the notebook's code *)

(** ** The normalisation loses nothing *)

Lemma pixels_ordered_all :
  forallb (fun p => forallb (stored_in_order p) uint8_values) uint8_values = true.
Proof. vm_compute. reflexivity. Qed.

Lemma normalize_pixel_lt (p q : Z) :
  0 <= p -> p < q -> q <= 255 ->
  float32_ltb (normalize_pixel p) (normalize_pixel q) = true.
Proof.
  intros Hp Hpq Hq. pose proof pixels_ordered_all as H.
  rewrite forallb_forall in H.
  specialize (H p (uint8_values_spec p ltac:(lia))).
  rewrite forallb_forall in H.
  specialize (H q (uint8_values_spec q ltac:(lia))).
  unfold stored_in_order in H.
  rewrite (proj2 (Z.ltb_lt p q) Hpq) in H. exact H.
Qed.

Lemma float32_ltb_irrefl (x : float32) : float32_ltb x x = false.
Proof.
  unfold float32_ltb, SFltb, SFcompare.
  destruct x as [s|s| |s m e]; try reflexivity; destruct s; try reflexivity.
  - rewrite Z.compare_refl, Pos.compare_cont_refl. reflexivity.
  - rewrite Z.compare_refl, Pos.compare_cont_refl. reflexivity.
Qed.

Lemma normalize_pixel_inj (p q : Z) :
  0 <= p <= 255 -> 0 <= q <= 255 ->
  normalize_pixel p = normalize_pixel q -> p = q.
Proof.
  intros Hp Hq Heq.
  destruct (Z.lt_trichotomy p q) as [Hlt|[Hlt|Hlt]]; [|exact Hlt|].
  - pose proof (normalize_pixel_lt p q ltac:(lia) Hlt ltac:(lia)) as H.
    rewrite Heq, float32_ltb_irrefl in H. discriminate.
  - pose proof (normalize_pixel_lt q p ltac:(lia) Hlt ltac:(lia)) as H.
    rewrite Heq, float32_ltb_irrefl in H. discriminate.
Qed.

Lemma normalize_flat (X : ndarray4 Z) :
  flat (normalize X) = map normalize_pixel (flat X).
Proof.
  unfold normalize, ndarray_div, astype_float32. simpl. now rewrite map_map.
Qed.

(** X1: on image arrays of bytes the normalisation keeps the order of the
    pixel values (a smaller pixel is stored as a strictly smaller float32)
    and is therefore one-to-one: two arrays with the same normalised array
    are the same array. *)
Theorem normalize_injective (X X' : ndarray4 Z) :
  uint8_array X -> uint8_array X' ->
  (forall i p q, flat X !! i = Some p -> flat X' !! i = Some q -> p < q ->
     exists x y, flat (normalize X) !! i = Some x
                 /\ flat (normalize X') !! i = Some y
                 /\ float32_ltb x y = true)
  /\ (normalize X = normalize X' -> X = X').
Proof.
  intros HX HX'. split.
  - intros i p q Hp Hq Hlt.
    exists (normalize_pixel p), (normalize_pixel q).
    rewrite !normalize_lookup, Hp, Hq. repeat split.
    unfold uint8_array in *. rewrite Forall_forall in HX, HX'.
    apply normalize_pixel_lt; [|exact Hlt|].
    + apply (HX p). eapply list_elem_of_lookup_2, Hp.
    + apply (HX' q). eapply list_elem_of_lookup_2, Hq.
  - intros Heq.
    assert (Hshape : shape X = shape X') by exact (f_equal shape Heq).
    assert (Hflat : map normalize_pixel (flat X) = map normalize_pixel (flat X')).
    { rewrite <- !normalize_flat. now rewrite Heq. }
    clear Heq. destruct X as [s l], X' as [s' l']. simpl in *. subst s'. f_equal.
    unfold uint8_array in *. simpl in *.
    revert l' HX' Hflat. induction HX as [|p l Hp HX IH]; intros [|q l'] HX' Hflat;
      try discriminate; [reflexivity|].
    inversion HX' as [|? ? Hq HX'']; subst. simpl in Hflat.
    injection Hflat as Hpq Hrest. f_equal.
    + now apply normalize_pixel_inj.
    + now apply IH.
Qed.

Lemma normalize_injective_witness :
  let X := mk_ndarray4 (1, 1, 1, 3)%nat [0; 17; 254] in
  let X' := mk_ndarray4 (1, 1, 1, 3)%nat [1; 18; 255] in
  (forall i p q, flat X !! i = Some p -> flat X' !! i = Some q -> p < q ->
     exists x y, flat (normalize X) !! i = Some x
                 /\ flat (normalize X') !! i = Some y
                 /\ float32_ltb x y = true)
  /\ (normalize X = normalize X' -> X = X').
Proof.
  apply (normalize_injective (mk_ndarray4 (1, 1, 1, 3)%nat [0; 17; 254])
           (mk_ndarray4 (1, 1, 1, 3)%nat [1; 18; 255]));
    unfold uint8_array; simpl; repeat constructor; lia.
Defined.

(** ** One-hot rows can be read back *)

Lemma row_sum_one_hot (n k : nat) :
  (k < n)%nat -> row_sum (<[k := 1]> (replicate n 0)) = 1.
Proof.
  unfold row_sum. revert k. induction n as [|n IH]; intros k Hk; [lia|].
  destruct k as [|k]; simpl.
  - assert (H0 : foldr Z.add 0 (replicate n 0) = 0).
    { clear. induction n as [|n IH]; simpl; [reflexivity|now rewrite IH]. }
    rewrite H0. reflexivity.
  - rewrite IH by lia. reflexivity.
Qed.

Lemma label_of_one_hot (n k : nat) :
  (k < n)%nat -> label_of (<[k := 1]> (replicate n 0)) = Some k.
Proof.
  intros Hk. unfold label_of.
  assert (H : list_find (fun v : Z => v = 1) (<[k := 1]> (replicate n 0)) = Some (k, 1)).
  { apply list_find_Some. split; [|split; [reflexivity|]].
    - apply list_lookup_insert_eq. now rewrite length_replicate.
    - intros j y Hj Hlt Hy. subst y.
      rewrite list_lookup_insert_ne in Hj by lia.
      apply lookup_replicate in Hj. destruct Hj as [Hj _]. discriminate. }
  now rewrite H.
Qed.

Lemma one_hot_in_range (n : nat) (t : Z) :
  0 <= t < Z.of_nat n ->
  exists row,
    np_utils.one_hot n t = Some row
    /\ one_hot_row n row /\ label_of row = Some (Z.to_nat t).
Proof.
  intros Ht. unfold np_utils.one_hot. rewrite decide_True by exact Ht.
  eexists. split; [reflexivity|]. split; [split; [|split]|].
  - now rewrite length_insert, length_replicate.
  - apply Forall_insert; [|now right].
    apply Forall_replicate. now left.
  - apply row_sum_one_hot. lia.
  - apply label_of_one_hot. lia.
Qed.

(** X2: for any number of classes, the conversion of labels that are class
    indices gives rows of 0s and 1s that sum to 1, and reading each row back
    (the position of its 1) returns the labels: no label is lost or
    confused with another. *)
Theorem to_categorical_round_trip (n : nat) (y : list Z) :
  Forall (fun t => 0 <= t < Z.of_nat n) y ->
  exists Y,
    np_utils.to_categorical y n = Some Y
    /\ Forall (one_hot_row n) Y
    /\ mapM label_of Y = Some (Z.to_nat <$> y).
Proof.
  unfold np_utils.to_categorical.
  induction 1 as [|t y Ht Hy (Y & HY & Hrows & Hback)].
  - exists []. repeat split; constructor.
  - destruct (one_hot_in_range n t Ht) as (row & Hrow & Hone & Hlabel).
    exists (row :: Y). split; [|split].
    + simpl. rewrite Hrow. simpl. rewrite HY. reflexivity.
    + now constructor.
    + simpl. rewrite Hlabel. simpl. rewrite Hback. reflexivity.
Qed.

Lemma to_categorical_round_trip_witness :
  exists Y,
    np_utils.to_categorical [3; 0; 9; 3] 10 = Some Y
    /\ Forall (one_hot_row 10) Y
    /\ mapM label_of Y = Some (Z.to_nat <$> [3; 0; 9; 3]).
Proof.
  apply (to_categorical_round_trip 10 [3; 0; 9; 3]).
  repeat constructor; simpl; lia.
Defined.

(** ** Every run is an initial part of the complete run *)

Section Quiet.

(** A run whose first [n] library calls do not raise. *)
Variable fails : nat -> option PyExc.
Variable n : nat.
Hypothesis quiet : forall i, (i < n)%nat -> fails i = None.

Lemma undisturbed_ret {A} (a : A) : undisturbed fails n (fun _ => mret a).
Proof.
  intros w Hw. simpl. unfold attempted. simpl.
  split; [reflexivity|]. split; [unfold in_step in Hw; lia|reflexivity].
Qed.

Lemma undisturbed_print (s : string) : undisturbed fails n (fun _ => print s).
Proof.
  intros w Hw. simpl. unfold attempted. simpl.
  split; [reflexivity|]. split; [unfold in_step in Hw; lia|reflexivity].
Qed.

Lemma undisturbed_library_call {A} (body : World -> PyExc + A * World)
    (ev : A -> Event) :
  undisturbed fails n (fun f => library_call f body ev).
Proof.
  intros w Hw. unfold in_step in Hw. unfold library_call, no_failure, attempted.
  destruct (body w) as [e0|[a w']]; cbn [fst snd raising returned trace attempts].
  - split; [reflexivity|]. split; [rewrite length_app; simpl; lia|].
    intros Hle. now rewrite quiet by lia.
  - split; [now apply prefix_app_r|]. rewrite !length_app. simpl.
    split; [lia|]. intros Hle. now rewrite quiet by lia.
Qed.

Lemma undisturbed_bind {A B} (m : (nat -> option PyExc) -> Py A)
    (k : A -> (nat -> option PyExc) -> Py B) :
  undisturbed fails n m ->
  (forall a, undisturbed fails n (k a)) ->
  undisturbed fails n (fun f => m f ≫= (fun a => k a f)).
Proof.
  intros Hm Hk w Hw. unfold mbind, Py_bind, bind.
  destruct (Hm w Hw) as (Hpre & Hlen & Hrun). cbn zeta in *.
  unfold attempted in Hlen, Hrun.
  destruct (m no_failure w) as [[a|e0] w1] eqn:E; cbn [fst snd] in *.
  - assert (Hw1 : in_step w1) by (unfold in_step; lia).
    destruct (Hk a w1 Hw1) as (Hpre' & Hlen' & Hrun'). cbn zeta in *.
    split; [now transitivity (trace w1)|]. split; [exact Hlen'|].
    intros Hle.
    assert (length (trace w1) <= length (trace (k a no_failure w1).2))%nat
      by now apply prefix_length.
    rewrite Hrun by (unfold attempted in *; simpl; lia).
    now apply Hrun'.
  - split; [exact Hpre|]. split; [exact Hlen|]. intros Hle. now rewrite Hrun.
Qed.

Lemma undisturbed_if {A} (b : bool) (m1 m2 : (nat -> option PyExc) -> Py A) :
  undisturbed fails n m1 -> undisturbed fails n m2 ->
  undisturbed fails n (fun f => if b then m1 f else m2 f).
Proof. now destruct b. Qed.

Ltac undisturbed_step :=
  lazymatch goal with
  | |- undisturbed _ _ (fun f => mbind _ _) =>
      apply (undisturbed_bind (fun f => _) (fun a f => _))
  | |- undisturbed _ _ (fun f => library_call _ _ _) => apply undisturbed_library_call
  | |- undisturbed _ _ (fun f => mret _) => apply undisturbed_ret
  | |- undisturbed _ _ (fun f => print _) => apply undisturbed_print
  | |- undisturbed _ _ (fun f => if _ then _ else _) => apply undisturbed_if
  | |- undisturbed _ _ (fun f => let '(_, _) := ?a in _) => destruct a
  | |- forall _, _ => intro
  end.

Lemma undisturbed_notebook (bs ne : Z) (aug : bool) (ds : Dataset) :
  undisturbed fails n (fun f => notebook_with f bs ne aug ds).
Proof.
  unfold notebook_with, cell_data, cell_sequential, cell_functional, cell_summary,
    cell_compile, cell_train.
  unfold Input, apply.
  unfold load_data, astype, truediv, to_categorical, Sequential, add, new, call,
    Model, model_summary, new_sgd, compile, fit, new_datagen, datagen_fit, flow,
    fit_generator.
  repeat undisturbed_step.
Qed.

End Quiet.

(** Either none of the first [N] calls raises, or there is a first one
    that does. *)
Lemma first_failure (fails : nat -> option PyExc) (N : nat) :
  (forall i, (i < N)%nat -> fails i = None)
  \/ exists n e, (n < N)%nat /\ fails n = Some e
                 /\ forall i, (i < n)%nat -> fails i = None.
Proof.
  induction N as [|N [IH|(n & e & Hn & He & Hbefore)]].
  - left. intros i Hi. lia.
  - destruct (fails N) as [e|] eqn:HN.
    + right. exists N, e. auto.
    + left. intros i Hi. destruct (decide (i = N)) as [->|]; [exact HN|].
      apply IH. lia.
  - right. exists n, e. auto.
Qed.

(** A run whose first 79 calls do not raise is the run without failures. *)
Lemma quiet_run (fails : nat -> option PyExc) (ds : Dataset) :
  cifar_like ds ->
  (forall i, (i < calls_of_a_run)%nat -> fails i = None) ->
  notebook fails ds initial = notebook no_failure ds initial.
Proof.
  intros H Hq. destruct (full_run_length ds H) as [Hok Hlen].
  unfold outcome, final in *.
  destruct (undisturbed_notebook fails calls_of_a_run Hq batch_size nb_epoch
              data_augmentation ds initial eq_refl) as (_ & _ & Hrun).
  apply Hrun. unfold attempted. fold (notebook no_failure ds).
  rewrite Hok, Hlen. lia.
Qed.

(** X3: on CIFAR-10-like data the notebook runs to its end exactly when
    none of its first 79 library calls raises, and then the run is the run
    without failures, whatever the library would have done in later calls:
    the notebook makes no 80th call. *)
Theorem notebook_completes_iff (fails : nat -> option PyExc) (ds : Dataset) :
  cifar_like ds ->
  (outcome fails ds = Ok tt
   <-> forall i, (i < calls_of_a_run)%nat -> fails i = None)
  /\ ((forall i, (i < calls_of_a_run)%nat -> fails i = None) ->
      notebook fails ds initial = notebook no_failure ds initial).
Proof.
  intros H. destruct (full_run_length ds H) as [Hok Hlen].
  unfold outcome, final in *.
  pose proof (quiet_run fails ds H) as Hquiet.
  split; [|exact Hquiet]. split.
  - intros Hend.
    destruct (first_failure fails calls_of_a_run) as [Hq|(n & e & Hn & He & Hbefore)];
      [exact Hq|].
    destruct (tracks_notebook fails n e He Hbefore batch_size nb_epoch
                data_augmentation ds initial eq_refl) as (_ & _ & _ & Hrun).
    specialize (Hrun (Nat.le_0_l n)). cbn zeta in Hrun.
    fold (notebook no_failure ds) in Hrun. fold (notebook fails ds) in Hrun.
    rewrite decide_False in Hrun by (unfold attempted; lia).
    destruct Hrun as (w & Hw & _). rewrite Hw in Hend. discriminate.
  - intros Hq. now rewrite (Hquiet Hq).
Qed.

Lemma notebook_completes_iff_witness :
  let fails := fail_at 100 (mk_PyExc "MemoryError" "") in
  (outcome fails sample_dataset = Ok tt
   <-> forall i, (i < calls_of_a_run)%nat -> fails i = None)
  /\ ((forall i, (i < calls_of_a_run)%nat -> fails i = None) ->
      notebook fails sample_dataset initial = notebook no_failure sample_dataset initial).
Proof.
  apply (notebook_completes_iff (fail_at 100 (mk_PyExc "MemoryError" ""))
           sample_dataset).
  check_cifar_like.
Defined.

Lemma trains_compiled_only_prefix (c : list nat) (l1 l2 : list Event) :
  trains_compiled_only c (l1 ++ l2) = true -> trains_compiled_only c l1 = true.
Proof.
  revert c. induction l1 as [|ev l1 IH]; intros c; [reflexivity|].
  simpl. destruct ev; simpl; try apply IH;
    rewrite !andb_true_iff; intros [Hc Hrest]; split; try assumption;
    now apply IH in Hrest.
Qed.

Lemma trains_compiled_only_sound (c : list nat) (tr : list Event) :
  trains_compiled_only c tr = true ->
  forall pre ev post id,
    tr = pre ++ ev :: post -> trains ev = Some id ->
    id ∈ c \/ exists args, In (Model_compile id args) pre.
Proof.
  revert c. induction tr as [|ev0 tr IH]; intros c Hc pre ev post id Htr Hev.
  - destruct pre; discriminate.
  - destruct pre as [|ev1 pre]; simpl in Htr; injection Htr as -> ->.
    + left. destruct ev; try discriminate; simpl in Hc, Hev;
        injection Hev as ->; apply andb_true_iff in Hc as [Hc _];
        now apply bool_decide_eq_true_1 in Hc.
    + assert (Hstep : exists c', trains_compiled_only c' (pre ++ ev :: post) = true
                /\ (forall i, i ∈ c' -> i ∈ c \/ exists args, ev1 = Model_compile i args)).
      { destruct ev1; simpl in Hc;
          try (exists c; split; [exact Hc|now left]);
          try (apply andb_true_iff in Hc as [_ Hc]; exists c; split; [exact Hc|now left]).
        exists (id0 :: c). split; [exact Hc|].
        intros i Hi. apply elem_of_cons in Hi as [->|Hi]; [right; now eexists|now left]. }
      destruct Hstep as (c' & Hc' & Hsub).
      destruct (IH c' Hc' pre ev post id eq_refl Hev) as [Hin|[args Hin]].
      * destruct (Hsub id Hin) as [?|[args ->]]; [now left|].
        right. exists args. now left.
      * right. exists args. now right.
Qed.

(** X4: on CIFAR-10-like data, whatever the failure pattern, the library
    calls of a run are an initial part of the calls of the complete run.
    So in no run is anything but its creation and [add] called on the
    [Sequential] object, and in no run is a model trained before it has
    been compiled. *)
Theorem every_run_is_a_prefix (fails : nat -> option PyExc) (ds : Dataset) :
  cifar_like ds ->
  let tr := trace (final fails ds) in
  tr `prefix_of` trace (final no_failure ds)
  /\ calls_on 0 tr
     `prefix_of` (new_Sequential 0
                    :: map (Sequential_add 0) (sequential_stack (32, 32, 3)%nat))
  /\ forall pre ev post id,
       tr = pre ++ ev :: post -> trains ev = Some id ->
       exists args, In (Model_compile id args) pre.
Proof.
  intros H tr.
  assert (Hpre : tr `prefix_of` trace (final no_failure ds)).
  { subst tr. unfold final.
    destruct (first_failure fails calls_of_a_run) as [Hq|(n & e & Hn & He & Hbefore)].
    - now rewrite (quiet_run fails ds H Hq).
    - destruct (full_run_length ds H) as [Hok Hlen]. unfold outcome, final in *.
      destruct (tracks_notebook fails n e He Hbefore batch_size nb_epoch
                  data_augmentation ds initial eq_refl) as (_ & _ & _ & Hrun).
      specialize (Hrun (Nat.le_0_l n)). cbn zeta in Hrun.
      fold (notebook no_failure ds) in Hrun. fold (notebook fails ds) in Hrun.
      rewrite decide_False in Hrun by (unfold attempted; lia).
      destruct Hrun as (w & -> & Htr & _). simpl. rewrite Htr. apply prefix_take. }
  split; [exact Hpre|].
  destruct Hpre as [rest Hrest].
  assert (Hfull :
    calls_on 0 (trace (final no_failure ds))
    = new_Sequential 0 :: map (Sequential_add 0) (sequential_stack (32, 32, 3)%nat)
    /\ trains_compiled_only [] (trace (final no_failure ds)) = true).
  { clear tr rest Hrest. run_notebook H. split; reflexivity. }
  destruct Hfull as [Hseq Hcomp]. rewrite Hrest in Hseq, Hcomp. split.
  - exists (calls_on 0 rest). rewrite <- Hseq. unfold calls_on. apply filter_app.
  - intros pre ev post id Htr Hev.
    apply trains_compiled_only_prefix in Hcomp.
    destruct (trains_compiled_only_sound [] tr Hcomp pre ev post id Htr Hev)
      as [Hin|Hin]; [|exact Hin].
    now apply elem_of_nil in Hin.
Qed.

Lemma every_run_is_a_prefix_witness :
  let fails := fail_at 77 (mk_PyExc "MemoryError" "") in
  let tr := trace (final fails sample_dataset) in
  tr `prefix_of` trace (final no_failure sample_dataset)
  /\ calls_on 0 tr
     `prefix_of` (new_Sequential 0
                    :: map (Sequential_add 0) (sequential_stack (32, 32, 3)%nat))
  /\ forall pre ev post id,
       tr = pre ++ ev :: post -> trains ev = Some id ->
       exists args, In (Model_compile id args) pre.
Proof.
  apply (every_run_is_a_prefix (fail_at 77 (mk_PyExc "MemoryError" ""))
           sample_dataset).
  check_cifar_like.
Defined.

(** ** What the cells print *)

(** X5: on CIFAR-10-like data the complete run writes to its output, in
    this order, the shape of the training images, the two sample counts,
    the summary table and [None], the augmentation notice, and then the
    report of Keras' training over 200 epochs, which the notebook records
    from [Epoch 1/200] on.  The table is the one the notebook records, row
    by row: the fourteen layers of the functional model under the names
    [input_1], [convolution2d_5] ... [activation_7], their output shapes
    from (32, 32, 3) down to (10), their weight counts, and the total
    1250858. *)
Theorem printed_output (ds : Dataset) :
  cifar_like ds ->
  let X_train := fst (fst ds) in
  let X_test := fst (snd ds) in
  stdout (final no_failure ds)
  = [ Text ("X_train shape: " +:+ str_shape4 (shape X_train));
      Text ("Train samples: " +:+ str_nat (shape_0 X_train) +:+ newline
              +:+ "Test samples: " +:+ str_nat (shape_0 X_test) +:+ ".");
      Table recorded_summary 1250858;
      Text "None";
      Text "Using real-time data augmentation.";
      Progress 200 ]
  /\ (summary <$> heap (final no_failure ds) !! 1%nat) = Some (Some recorded_summary)
  /\ total_params recorded_summary = 1250858%N.
Proof.
  intros H X_train X_test. subst X_train X_test. run_notebook H.
  split; [reflexivity|]. split; vm_compute; reflexivity.
Qed.

Lemma printed_output_witness :
  let X_train := fst (fst sample_dataset) in
  let X_test := fst (snd sample_dataset) in
  stdout (final no_failure sample_dataset)
  = [ Text ("X_train shape: " +:+ str_shape4 (shape X_train));
      Text ("Train samples: " +:+ str_nat (shape_0 X_train) +:+ newline
              +:+ "Test samples: " +:+ str_nat (shape_0 X_test) +:+ ".");
      Table recorded_summary 1250858;
      Text "None";
      Text "Using real-time data augmentation.";
      Progress 200 ]
  /\ (summary <$> heap (final no_failure sample_dataset) !! 1%nat)
     = Some (Some recorded_summary)
  /\ total_params recorded_summary = 1250858%N.
Proof.
  apply (printed_output sample_dataset). check_cifar_like.
Defined.

(** ** The two models share no layer *)

(** X6: on CIFAR-10-like data the run creates 32 layer objects, the 18 of
    the [Sequential] stack followed by the placeholder and the 13 layers of
    the functional model.  Every created layer belongs to exactly one of the
    two models and all names differ: the models share no layer, hence no
    weights. *)
Theorem layers_not_shared (ds : Dataset) :
  cifar_like ds ->
  let w := final no_failure ds in
  exists seq fn ls ls',
    heap w !! 0%nat = Some seq /\ heap w !! 1%nat = Some fn
    /\ model_layers seq = Some ls /\ model_layers fn = Some ls'
    /\ created (trace w) = ls ++ ls'
    /\ length ls = 18%nat /\ length ls' = 14%nat
    /\ NoDup (layer_name <$> (ls ++ ls'))
    /\ forall l l', l ∈ ls -> l' ∈ ls' -> l <> l'.
Proof.
  intros H w. subst w. run_notebook H.
  exists (sequential_object (32, 32, 3)%nat), (functional_object (32, 32, 3)%nat),
    (sequential_stack (32, 32, 3)%nat),
    (functional_input (32, 32, 3)%nat :: functional_chain).
  do 7 (split; [reflexivity|]).
  assert (Hnames : NoDup (layer_name <$> (sequential_stack (32, 32, 3)%nat
                     ++ functional_input (32, 32, 3)%nat :: functional_chain))).
  { apply (@bool_decide_unpack _ (NoDup_dec _)). vm_compute. exact I. }
  split; [exact Hnames|].
  intros l l' Hl Hl' ->.
  rewrite fmap_app in Hnames. apply NoDup_app in Hnames as (_ & Hdisj & _).
  apply (Hdisj (layer_name l')); now apply list_elem_of_fmap_2.
Qed.

Lemma layers_not_shared_witness :
  let w := final no_failure sample_dataset in
  exists seq fn ls ls',
    heap w !! 0%nat = Some seq /\ heap w !! 1%nat = Some fn
    /\ model_layers seq = Some ls /\ model_layers fn = Some ls'
    /\ created (trace w) = ls ++ ls'
    /\ length ls = 18%nat /\ length ls' = 14%nat
    /\ NoDup (layer_name <$> (ls ++ ls'))
    /\ forall l l', l ∈ ls -> l' ∈ ls' -> l <> l'.
Proof.
  apply (layers_not_shared sample_dataset). check_cifar_like.
Defined.

(** ** Labels that are no class index *)

Lemma bind_raise {A B} (m : Py A) (k : A -> Py B) (w w' : World) (e : PyExc) :
  m w = (Raise e, w') -> (m ≫= k) w = (Raise e, w').
Proof. intros H. unfold mbind, Py_bind, bind. now rewrite H. Qed.

Lemma to_categorical_too_large (y : list Z) :
  Exists (fun t => Z.of_nat nb_classes <= t) y ->
  np_utils.to_categorical y nb_classes = None.
Proof.
  intros Hy. apply mapM_None_2. eapply Exists_impl; [exact Hy|].
  intros t Ht. simpl in *. unfold np_utils.one_hot. apply decide_False. lia.
Qed.

(** X7: a label of 10 or more in the training labels makes the first cell
    end in [IndexError] at its sixth library call, after the two lines have
    been printed: the data is loaded and normalised, but no label matrix
    and no model is ever built.  With sound training labels, such a label
    among the test labels ends the run one call later, in the same way.
    The call that raised is the last call made, and the world is left as
    that call found it. *)
Theorem label_out_of_range (fails : nat -> option PyExc) (ds : Dataset) :
  (forall i, (i < 7)%nat -> fails i = None) ->
  let y_train := snd (fst ds) in
  let y_test := snd (snd ds) in
  let lines := take 2 (printed true (fst (fst ds)) (fst (snd ds))) in
  let w := final fails ds in
  (Exists (fun t => Z.of_nat nb_classes <= t) y_train ->
   outcome fails ds = Raise IndexError
   /\ snapshot w = mk_Snapshot [] ∅ (take 5 data_calls) lines
   /\ length (attempts w) = 6%nat
   /\ last (attempts w) = Some (mk_Attempt (snapshot w) (Some IndexError)))
  /\ (Forall valid_label y_train ->
      Exists (fun t => Z.of_nat nb_classes <= t) y_test ->
      outcome fails ds = Raise IndexError
      /\ snapshot w = mk_Snapshot [] ∅ (take 6 data_calls) lines
      /\ length (attempts w) = 7%nat
      /\ last (attempts w) = Some (mk_Attempt (snapshot w) (Some IndexError))).
Proof.
  intros Hq y_train y_test lines w. subst y_train y_test lines w.
  destruct ds as [[X y] [X' y']]. cbn [fst snd]. unfold outcome, final.
  destruct (undisturbed_notebook fails 7 Hq batch_size nb_epoch data_augmentation
              ((X, y), (X', y')) initial eq_refl) as (_ & _ & Hrun).
  cbn zeta in Hrun. fold (notebook no_failure ((X, y), (X', y'))) in Hrun.
  fold (notebook fails ((X, y), (X', y'))) in Hrun.
  split.
  - intros Hy. apply to_categorical_too_large in Hy.
    assert (Hnf : exists w,
              notebook no_failure ((X, y), (X', y')) initial = (Raise IndexError, w)
              /\ snapshot w
                 = mk_Snapshot [] ∅ (take 5 data_calls) (take 2 (printed true X X'))
              /\ length (attempts w) = 6%nat
              /\ last (attempts w) = Some (mk_Attempt (snapshot w) (Some IndexError))).
    { eexists. split.
      - unfold notebook, notebook_with. apply bind_raise.
        unfold cell_data, to_categorical, library_call, mbind, Py_bind, bind. simpl.
        rewrite Hy. reflexivity.
      - repeat split. }
    destruct Hnf as (w & Hnf & Hw & Hrest).
    rewrite Hrun; rewrite Hnf; [now split|].
    apply (f_equal snap_trace) in Hw. unfold attempted. simpl in *. rewrite Hw.
    simpl. lia.
  - intros Hy Hy'. apply to_categorical_too_large in Hy'.
    destruct (to_categorical_total y Hy) as [Y HY].
    assert (Hnf : exists w,
              notebook no_failure ((X, y), (X', y')) initial = (Raise IndexError, w)
              /\ snapshot w
                 = mk_Snapshot [] ∅ (take 6 data_calls) (take 2 (printed true X X'))
              /\ length (attempts w) = 7%nat
              /\ last (attempts w) = Some (mk_Attempt (snapshot w) (Some IndexError))).
    { eexists. split.
      - unfold notebook, notebook_with. apply bind_raise.
        unfold cell_data, to_categorical, library_call, mbind, Py_bind, bind. simpl.
        rewrite HY. simpl. rewrite Hy'. reflexivity.
      - repeat split. }
    destruct Hnf as (w & Hnf & Hw & Hrest).
    rewrite Hrun; rewrite Hnf; [now split|].
    apply (f_equal snap_trace) in Hw. unfold attempted. simpl in *. rewrite Hw.
    simpl. lia.
Qed.

Lemma label_out_of_range_witness :
  let ds : Dataset := ((sample_images 2, [3; 10]), (sample_images 1, [9])) in
  let w := final no_failure ds in
  outcome no_failure ds = Raise IndexError
  /\ snapshot w
     = mk_Snapshot [] ∅ (take 5 data_calls)
         (take 2 (printed true (fst (fst ds)) (fst (snd ds))))
  /\ length (attempts w) = 6%nat
  /\ last (attempts w) = Some (mk_Attempt (snapshot w) (Some IndexError)).
Proof.
  refine (proj1 (label_out_of_range no_failure
                   ((sample_images 2, [3; 10]), (sample_images 1, [9])) _) _).
  - reflexivity.
  - right. left. unfold nb_classes. simpl. lia.
Defined.

(** ** Images of other sizes *)

Ltac leb_true :=
  repeat match goal with
         | |- context [(?a <=? ?b)%nat] => rewrite (proj2 (Nat.leb_le a b)) by lia
         | |- context [(?a <? ?b)%nat] => rewrite (proj2 (Nat.ltb_lt a b)) by lia
         end.

Ltac infer_shapes :=
  repeat (progress
            (leb_true;
             cbn -[Nat.div Nat.leb Nat.ltb Nat.sub Nat.add Nat.mul
                   N.of_nat N.mul N.add])).

(** The table of the functional model on images that fit. *)
Lemma summary_fitting (r c ch : nat) :
  (10 <= r)%nat -> (10 <= c)%nat ->
  exists rows,
    summary (functional_object (r, c, ch)) = Some rows
    /\ length rows = 14%nat
    /\ row_shape <$> rows !! 0%nat = Some [r; c; ch]
    /\ row_shape <$> rows !! 9%nat = Some [reduced r * (reduced c * (64 * 1))]%nat
    /\ row_shape <$> rows !! 13%nat = Some [10%nat]
    /\ total_params rows = weights_for (r, c, ch).
Proof.
  intros Hr Hc.
  assert (Hr' : (4 <= (r - 3 + 1) / 2)%nat) by (apply Nat.div_le_lower_bound; lia).
  assert (Hc' : (4 <= (c - 3 + 1) / 2)%nat) by (apply Nat.div_le_lower_bound; lia).
  unfold summary. rewrite functional_layers.
  cbn [mbind option_bind input_shape_of functional_input config shape_list].
  unfold functional_chain. infer_shapes.
  eexists. split; [reflexivity|]. do 4 (split; [reflexivity|]).
  unfold total_params, weights_for, reduced.
  cbn -[Nat.div Nat.sub Nat.add Nat.mul N.of_nat N.mul N.add]. lia.
Qed.

(** The run on images of other shapes, given the table the summary
    prints. *)
Lemma notebook_run_with_table (bs ne : Z) (aug : bool) (n r c ch : nat)
    (px : list Z) (y : list Z) (X' : ndarray4 Z) (y' : list Z)
    (Y Y' : list (list Z)) (rows : list SummaryRow) :
  np_utils.to_categorical y nb_classes = Some Y ->
  np_utils.to_categorical y' nb_classes = Some Y' ->
  summary (functional_object (r, c, ch)) = Some rows ->
  let run := notebook_with no_failure bs ne aug
               ((mk_ndarray4 (n, r, c, ch) px, y), (X', y')) initial in
  fst run = Ok tt
  /\ snapshot (snd run)
     = final_with rows bs ne aug (mk_ndarray4 (n, r, c, ch) px) Y X' Y'.
Proof.
  intros HY HY' Hrows. cbn zeta. run_cell_data HY HY'.
  unfold final_with. abstract_arrays.
  erewrite bind_ok by (apply run_seen; vm_compute; reflexivity). forget_attempts.
  erewrite bind_ok by (apply run_seen; vm_compute; reflexivity). forget_attempts.
  erewrite bind_ok.
  2:{ unfold cell_summary, model_summary, library_call, print, mbind, Py_bind, bind.
      cbn [no_failure trace heap attempts lookup list_lookup].
      match goal with
      | |- context [summary ?o] => change (summary o) with (summary (functional_object (r, c, ch)))
      end.
      rewrite Hrows. reflexivity. }
  destruct aug; split; vm_compute; reflexivity.
Qed.

(** X8: the notebook is not tied to CIFAR's image size.  On any data with
    labels in 0..9 and images of at least 10 x 10 pixels, with any number of
    channels, the run without failures completes with the same 79 calls and
    the same two model objects, built for the shape of the data; the table
    it prints has fourteen rows, from the image shape down to 10 outputs,
    and its total is [weights_for] of the shape. *)
Theorem other_image_sizes (ds : Dataset) :
  Forall valid_label (snd (fst ds)) ->
  Forall valid_label (snd (snd ds)) ->
  let s := shape_from_1 (fst (fst ds)) in
  fits s ->
  outcome no_failure ds = Ok tt
  /\ heap (final no_failure ds) = [sequential_object s; functional_object s]
  /\ length (trace (final no_failure ds)) = calls_of_a_run
  /\ exists rows,
       stdout (final no_failure ds) !! 2%nat = Some (Table rows (weights_for s))
       /\ length rows = 14%nat
       /\ row_shape <$> rows !! 0%nat = Some (shape_list s)
       /\ row_shape <$> rows !! 13%nat = Some [10%nat].
Proof.
  destruct ds as [[[[[[n r] c] ch] px] y] [X' y']]. cbn [fst snd].
  intros Hy Hy'. cbn zeta. unfold shape_from_1. cbn [shape].
  intros [Hr Hc].
  destruct (to_categorical_total y Hy) as [Y HY].
  destruct (to_categorical_total y' Hy') as [Y' HY'].
  destruct (summary_fitting r c ch Hr Hc)
    as (rows & Hrows & Hlen & Hfirst & _ & Hlast & Htotal).
  destruct (notebook_run_with_table batch_size nb_epoch data_augmentation
              n r c ch px y X' y' Y Y' rows HY HY' Hrows) as [Hok Hseen].
  cbn zeta in Hok, Hseen. unfold outcome, final, notebook.
  rewrite Hok.
  change (heap ?w) with (snap_heap (snapshot w)).
  change (trace ?w) with (snap_trace (snapshot w)).
  change (stdout ?w) with (snap_stdout (snapshot w)).
  rewrite Hseen. unfold final_with, expected_final.
  cbn [snap_heap snap_trace snap_stdout snap_uids shape_from_1 shape].
  split; [reflexivity|]. split; [reflexivity|]. split; [reflexivity|].
  exists rows. rewrite <- Htotal. repeat split; assumption || reflexivity.
Qed.

Lemma other_image_sizes_witness :
  let ds : Dataset :=
    ((mk_ndarray4 (2, 28, 28, 1)%nat (repeat 7 1568), [3; 0]),
     (mk_ndarray4 (1, 28, 28, 1)%nat (repeat 9 784), [9])) in
  outcome no_failure ds = Ok tt
  /\ heap (final no_failure ds)
     = [sequential_object (28, 28, 1)%nat; functional_object (28, 28, 1)%nat]
  /\ length (trace (final no_failure ds)) = calls_of_a_run
  /\ exists rows,
       stdout (final no_failure ds) !! 2%nat
       = Some (Table rows (weights_for (28, 28, 1)%nat))
       /\ length rows = 14%nat
       /\ row_shape <$> rows !! 0%nat = Some [28; 28; 1]%nat
       /\ row_shape <$> rows !! 13%nat = Some [10%nat].
Proof.
  refine (other_image_sizes
            ((mk_ndarray4 (2, 28, 28, 1)%nat (repeat 7 1568), [3; 0]),
             (mk_ndarray4 (1, 28, 28, 1)%nat (repeat 9 784), [9])) _ _ _).
  - repeat constructor; unfold nb_classes; lia.
  - repeat constructor; unfold nb_classes; lia.
  - unfold fits. simpl. lia.
Defined.

(** On 28 x 28 grey-scale images the network has 889834 weights, on
    CIFAR's images the 1250858 of the recorded table. *)
Example other_sizes_examples :
  weights_for (28, 28, 1)%nat = 889834%N
  /\ weights_for (32, 32, 3)%nat = 1250858%N.
Proof. split; vm_compute; reflexivity. Qed.

(** ** The model cells in any kernel state *)

Lemma Sequential_runs (h : list ModelObj) (u : gmap string nat) (t : list Event)
    (o : list Printed) (a : list Attempt) :
  Sequential no_failure (mk_World h u t o a)
  = (Ok (length h),
     mk_World (h ++ [mk_ModelObj (Stack []) None]) u (t ++ [new_Sequential (length h)]) o
       (a ++ [mk_Attempt (mk_Snapshot h u t o) None])).
Proof. reflexivity. Qed.

(** Creating a layer and adding it, when it may be added: the stack is not
    empty, or the layer says what its input is. *)
Lemma new_add_runs (h : list ModelObj) (ls : list Layer) (c : option CompileArgs)
    (u : gmap string nat) (t : list Event) (o : list Printed) (a : list Attempt)
    (cfg : LayerConfig) :
  let l := mk_Layer (name_prefix cfg, S (u !!! name_prefix cfg)) cfg in
  let u' := <[name_prefix cfg := S (u !!! name_prefix cfg)]> u in
  let w := mk_World (h ++ [mk_ModelObj (Stack ls) c]) u t o a in
  let w' := mk_World (h ++ [mk_ModelObj (Stack ls) c]) u' (t ++ [new_layer l]) o
              (a ++ [mk_Attempt (snapshot w) None]) in
  ls <> [] \/ is_Some (input_shape_of [l]) ->
  (new no_failure cfg ≫= add no_failure (length h)) w
  = (Ok tt,
     mk_World (h ++ [mk_ModelObj (Stack (ls ++ [l])) c]) u'
       ((t ++ [new_layer l]) ++ [Sequential_add (length h) l]) o
       ((a ++ [mk_Attempt (snapshot w) None]) ++ [mk_Attempt (snapshot w') None])).
Proof.
  intros l u' w w' Hfirst. subst w w'.
  unfold mbind, Py_bind, bind, new, add, library_call, no_failure, returned, set_heap.
  cbn [heap uids trace stdout attempts].
  rewrite list_lookup_middle by reflexivity.
  rewrite insert_app_r_alt by lia. rewrite Nat.sub_diag.
  destruct ls as [|l0 ls]; [|reflexivity].
  destruct Hfirst as [Hne|[s Hs]]; [congruence|]. fold l. now rewrite Hs.
Qed.

Lemma apply_runs (h : list ModelObj) (u : gmap string nat) (t : list Event)
    (o : list Printed) (a : list Attempt) (cfg : LayerConfig) (x : Tensor) :
  let l := mk_Layer (name_prefix cfg, S (u !!! name_prefix cfg)) cfg in
  let u' := <[name_prefix cfg := S (u !!! name_prefix cfg)]> u in
  apply no_failure cfg x (mk_World h u t o a)
  = (Ok (Output_of l x),
     mk_World h u' ((t ++ [new_layer l]) ++ [layer_call l]) o
       ((a ++ [mk_Attempt (mk_Snapshot h u t o) None])
          ++ [mk_Attempt (mk_Snapshot h u' (t ++ [new_layer l]) o) None])).
Proof. reflexivity. Qed.

Lemma Input_runs (h : list ModelObj) (u : gmap string nat) (t : list Event)
    (o : list Printed) (a : list Attempt) (s : nat * nat * nat) :
  let l := mk_Layer ("input", S (u !!! "input")) (InputLayer s) in
  Input no_failure s (mk_World h u t o a)
  = (Ok (Placeholder l),
     mk_World h (<["input" := S (u !!! "input")]> u) (t ++ [new_layer l]) o
       (a ++ [mk_Attempt (mk_Snapshot h u t o) None])).
Proof. reflexivity. Qed.

(** The counters matter for the names only, and the record of the calls
    made for nothing; once a layer is named they are put out of sight. *)
Ltac forget_uids :=
  cbv zeta;
  match goal with
  | |- context [mk_World _ _ _ _ (?a ++ ?x)] => generalize (a ++ x); intro
  end;
  match goal with
  | |- context [mk_World _ (<[?p := ?v]> ?u) _ _ _] => generalize (<[p := v]> u); intro
  end.

(** X9: the two cells that declare the network can be run in any kernel
    state, on images the network is large enough for (on smaller ones the
    library may refuse a layer, which is left to the failure pattern and
    not claimed here).  Each creates one new model object at the end of the
    heap and returns its identity, leaves every existing object and
    everything printed untouched, and only extends the trace (by 37 and by
    28 calls).  The new [Sequential] object has the eighteen layer
    configurations of the cell whatever the state; so has the new
    functional model its fourteen; and both have the stated architecture.
    Only the names of the layers depend on the state. *)
Theorem model_cells_in_any_state (w : World) (X_train : ndarray4 float32) :
  let s := shape_from_1 X_train in
  fits s ->
  (exists w' ls,
     cell_sequential no_failure X_train w = (Ok (length (heap w)), w')
     /\ heap w' = heap w ++ [mk_ModelObj (Stack ls) None]
     /\ config <$> ls = config <$> sequential_stack s
     /\ architecture ls = stated_architecture
     /\ stdout w' = stdout w
     /\ trace w `prefix_of` trace w'
     /\ length (trace w') = (length (trace w) + 37)%nat)
  /\ (exists w' fn ls,
        cell_functional no_failure X_train w = (Ok (length (heap w)), w')
        /\ heap w' = heap w ++ [fn]
        /\ compiled fn = None
        /\ model_layers fn = Some ls
        /\ config <$> ls = config <$> (functional_input s :: functional_chain)
        /\ architecture ls = stated_architecture
        /\ stdout w' = stdout w
        /\ trace w `prefix_of` trace w'
        /\ length (trace w') = (length (trace w) + 28)%nat).
Proof.
  destruct w as [h u t o a]. cbn [heap trace stdout]. cbn zeta. intros _. split.
  - pattern (cell_sequential no_failure X_train (mk_World h u t o a)).
    match goal with |- ?Q _ => set (post := Q) end.
    unfold cell_sequential.
    rewrite (bind_ok _ _ _ _ _ (Sequential_runs h u t o a)). cbv beta.
    do 18 (erewrite bind_ok
             by (apply new_add_runs; first [right; now eexists | now left]);
           cbn [app]; forget_uids; cbv beta).
    subst post. cbv beta.
    do 2 eexists. split; [reflexivity|]. cbn [heap trace stdout].
    split; [reflexivity|]. split; [reflexivity|]. split; [reflexivity|].
    split; [reflexivity|]. split.
    + rewrite <- !app_assoc. now apply prefix_app_r.
    + rewrite !length_app. cbn [length]. lia.
  - pattern (cell_functional no_failure X_train (mk_World h u t o a)).
    match goal with |- ?Q _ => set (post := Q) end.
    unfold cell_functional.
    rewrite (bind_ok _ _ _ _ _ (Input_runs h u t o a _)). forget_uids. cbv beta.
    do 13 (erewrite bind_ok by apply apply_runs; forget_uids; cbv beta).
    unfold Model, library_call, no_failure, returned, allocate, set_heap.
    cbn [trace heap uids stdout attempts model_layers topology placeholder_of layer_name].
    rewrite decide_True by reflexivity.
    subst post. cbv beta.
    do 3 eexists. split; [reflexivity|]. cbn [heap trace stdout].
    split; [reflexivity|]. split; [reflexivity|].
    split; [cbn [model_layers topology placeholder_of layer_name];
            rewrite decide_True by reflexivity; reflexivity|].
    split; [reflexivity|]. split; [reflexivity|]. split; [reflexivity|]. split.
    + rewrite <- !app_assoc. now apply prefix_app_r.
    + rewrite !length_app. cbn [length]. lia.
Qed.

(** A kernel in which a model was declared before, and grey-scale images
    of 28 x 28 pixels. *)
Lemma model_cells_in_any_state_witness :
  let w := mk_World [mk_ModelObj (Stack []) None] {[ "dense" := 4%nat ]}
             [new_Sequential 0] [Text "None"] [] in
  let X_train := mk_ndarray4 (1, 28, 28, 1)%nat ([] : list float32) in
  let s := (28, 28, 1)%nat in
  (exists w' ls,
     cell_sequential no_failure X_train w = (Ok (length (heap w)), w')
     /\ heap w' = heap w ++ [mk_ModelObj (Stack ls) None]
     /\ config <$> ls = config <$> sequential_stack s
     /\ architecture ls = stated_architecture
     /\ stdout w' = stdout w
     /\ trace w `prefix_of` trace w'
     /\ length (trace w') = (length (trace w) + 37)%nat)
  /\ (exists w' fn ls,
        cell_functional no_failure X_train w = (Ok (length (heap w)), w')
        /\ heap w' = heap w ++ [fn]
        /\ compiled fn = None
        /\ model_layers fn = Some ls
        /\ config <$> ls = config <$> (functional_input s :: functional_chain)
        /\ architecture ls = stated_architecture
        /\ stdout w' = stdout w
        /\ trace w `prefix_of` trace w'
        /\ length (trace w') = (length (trace w) + 28)%nat).
Proof.
  apply (model_cells_in_any_state
           (mk_World [mk_ModelObj (Stack []) None] {[ "dense" := 4%nat ]}
              [new_Sequential 0] [Text "None"] [])
           (mk_ndarray4 (1, 28, 28, 1)%nat [])).
  unfold fits. simpl. lia.
Defined.
